(** * starmap: data/build_data.py

    A shallow embedding of the asset builder: the name filter, the schema
    resolver, the record loader, the jump filter and the asset writer, with
    the properties of the specification proved about them.

    Conventions of the model.
    - A Python [float] is a binary64 number: the kernel's primitive floats.
    - A Python [int] is an element of [Z].
    - A Python [str] is a [string] whose characters stand for the code
      points below 256.  On that range [\d] is the ASCII digits and letter
      case is the Latin-1 one, as in CPython.
    - [None] is the [None] of [option].
    - Table and column names are plain SQL identifiers, so a statement built
      by interpolating a name denotes the table or column of that name.  A
      database is the tables that [sqlite_master] lists; views, the schema
      table and the hidden [rowid] column are not modelled.
    - A path is the text of the output directory, a slash and the file name;
      [pathlib]'s normalisation is not modelled. *)

From Stdlib Require Import ZArith List String Ascii Bool Lia Floats.
From stdpp Require Import base option list gmap strings pretty.

Local Open Scope Z_scope.

(** ** Coordinate transform *)

(** [METERS_PER_LY = 9.4607304725808e15  # IAU light-year] *)
Definition METERS_PER_LY : float := 9.4607304725808e15%float.

(** [transform_xyz(xm, ym, zm)]; [float(xm)] is the identity on a float. *)
Definition transform_xyz (xm ym zm : float) : float * float * float :=
  let xly := (xm / METERS_PER_LY)%float in
  let yly := (ym / METERS_PER_LY)%float in
  let zly := (zm / METERS_PER_LY)%float in
  (xly, zly, (- yly)%float).

(** Python's [==] on two triples of floats. *)
Definition triple_eqb (a b : float * float * float) : bool :=
  let '(a1, a2, a3) := a in
  let '(b1, b2, b3) := b in
  (a1 =? b1)%float && (a2 =? b2)%float && (a3 =? b3)%float.

(** ** Strings

    [str.lower] and the case folding of [re.IGNORECASE] on the code points
    below 256: the letters A-Z and the accented capitals 192-222 (the
    multiplication sign 215 apart) move up by 32. *)

Definition lower_char (c : ascii) : ascii :=
  let n := N_of_ascii c in
  if ((65 <=? n) && (n <=? 90) || (192 <=? n) && (n <=? 222) && negb (n =? 215))%N
  then ascii_of_N (n + 32) else c.

Fixpoint lower (s : string) : string :=
  match s with
  | EmptyString => EmptyString
  | String c r => String (lower_char c) (lower r)
  end.

(** [k in s] on strings: [k] occurs in [s] as a substring. *)
Fixpoint str_in (k s : string) : bool :=
  String.prefix k s
  || match s with
     | EmptyString => false
     | String _ r => str_in k r
     end.

(** The truth value of an optional string: [None] and [""] are false. *)
Definition truthy (o : option string) : bool :=
  match o with
  | Some s => negb (String.eqb s "")
  | None => false
  end.

(** [a or b] on optional strings. *)
Definition py_or (a b : option string) : option string :=
  if truthy a then a else b.

(** ** Name filter

    The fragment of [re] that the two patterns use.  [\d{3}] is a repeat
    with equal bounds; [^] and [$] are the anchors without [re.MULTILINE],
    so [$] holds at the end of the text and also just before a newline that
    ends the text. *)

Inductive sre_atom :=
| AT_BEGINNING
| AT_END
| LITERAL (c : ascii)
| CATEGORY_DIGIT.

Inductive sre_item :=
| Atom (a : sre_atom)
| Repeat (n : nat) (a : sre_atom).

Definition sre_pattern := list sre_item.

Definition sre_expand (p : sre_pattern) : list sre_atom :=
  flat_map (fun i => match i with
                     | Atom a => [a]
                     | Repeat n a => repeat a n
                     end) p.

Definition is_digit (c : ascii) : bool :=
  let n := N_of_ascii c in ((48 <=? n) && (n <=? 57))%N.

Definition literal_eqb (ignorecase : bool) (c ch : ascii) : bool :=
  if ignorecase then Ascii.eqb (lower_char ch) (lower_char c)
  else Ascii.eqb ch c.

Definition newline : ascii := ascii_of_N 10.

Definition at_end (s : string) : bool :=
  match s with
  | EmptyString => true
  | String c EmptyString => Ascii.eqb c newline
  | _ => false
  end.

(** The matcher at one position of the text: [at_start] tells whether the
    position is the beginning of the text, [s] is the text from there on. *)
Fixpoint sre_match (ignorecase : bool) (p : list sre_atom) (at_start : bool)
  (s : string) : bool :=
  match p with
  | [] => true
  | AT_BEGINNING :: p' => at_start && sre_match ignorecase p' at_start s
  | AT_END :: p' => at_end s && sre_match ignorecase p' at_start s
  | LITERAL c :: p' =>
      match s with
      | String ch s' => literal_eqb ignorecase c ch && sre_match ignorecase p' false s'
      | EmptyString => false
      end
  | CATEGORY_DIGIT :: p' =>
      match s with
      | String ch s' => is_digit ch && sre_match ignorecase p' false s'
      | EmptyString => false
      end
  end.

(** [re.match(pattern, string, flags)] as a truth value: a match that starts
    at the beginning of the text. *)
Definition re_match (p : sre_pattern) (s : string) (ignorecase : bool) : bool :=
  sre_match ignorecase (sre_expand p) true s.

(** [r'^V-\d{3}$'] *)
Definition pattern_V : sre_pattern :=
  [Atom AT_BEGINNING; Atom (LITERAL "V"); Atom (LITERAL "-");
   Repeat 3 CATEGORY_DIGIT; Atom AT_END].

(** [r'^AD\d{3}$'] *)
Definition pattern_AD : sre_pattern :=
  [Atom AT_BEGINNING; Atom (LITERAL "A"); Atom (LITERAL "D");
   Repeat 3 CATEGORY_DIGIT; Atom AT_END].

Definition is_filtered_system (name : string) : bool :=
  if re_match pattern_V name true then true
  else if re_match pattern_AD name true then true
  else false.

(** ** Values, builtins, errors *)

(** What [sqlite3] hands back for a cell: [None], [int], [float], [str] or
    [bytes]. *)
Inductive value :=
| VNone
| VInt (n : Z)
| VFloat (f : float)
| VStr (s : string)
| VBytes (b : string).

(** The builtins [int(v)], [float(v)] and [str(v)] of the runtime; [None] is
    a raised [TypeError], [ValueError] or [OverflowError]. *)
Class Builtins := {
  py_int : value -> option Z;
  py_float : value -> option float;
  py_str : value -> string
}.

(** The exceptions that end a run, named by where they are raised. *)
Inductive error :=
| SystemExit          (* line 90: no systems table *)
| IndexError          (* [sys_cols[0]] on an empty list, a missing row key *)
| OperationalError    (* [execute]: no such table or column *)
| NameTypeError       (* [re.match] on a name that is not a [str] *)
| CoordError          (* [float(row[x_col])] *)
| IdError             (* [int(sid)] *)
| JumpError           (* [int(r["s"])], [int(r["t"])] *)
| OverflowError.      (* [array('I')]: item out of range *)

Inductive result (A : Type) :=
| Ok (a : A)
| Raise (e : error).
Arguments Ok {A} a.
Arguments Raise {A} e.

#[export] Instance result_ret : MRet result := fun A a => Ok a.
#[export] Instance result_bind : MBind result := fun A B f m =>
  match m with
  | Ok a => f a
  | Raise e => Raise e
  end.

#[export] Instance result_fmap : FMap result := fun A B f m =>
  match m with
  | Ok a => Ok (f a)
  | Raise e => Raise e
  end.

Definition of_option {A} (e : error) (o : option A) : result A :=
  match o with
  | Some a => Ok a
  | None => Raise e
  end.

(** ** The database *)

Record table := {
  tbl_name : string;
  tbl_cols : list string;
  tbl_rows : list (list value)
}.

(** The tables in the order [sqlite_master] enumerates them. *)
Definition database := list table.

(** SQLite compares identifiers without regard to the case of A-Z. *)
Definition sqlite_lower_char (c : ascii) : ascii :=
  let n := N_of_ascii c in
  if ((65 <=? n) && (n <=? 90))%N then ascii_of_N (n + 32) else c.

Fixpoint sqlite_lower (s : string) : string :=
  match s with
  | EmptyString => EmptyString
  | String c r => String (sqlite_lower_char c) (sqlite_lower r)
  end.

Definition ident_eqb (a b : string) : bool :=
  String.eqb (sqlite_lower a) (sqlite_lower b).

(** [SELECT name FROM sqlite_master WHERE type='table'] *)
Definition table_names (db : database) : list string := map tbl_name db.

Definition find_table (db : database) (t : string) : option table :=
  List.find (fun tb => ident_eqb (tbl_name tb) t) db.

(** A fetched row: the declared name of each selected column with its cell,
    as [sqlite3.Row] keeps them. *)
Definition row := list (string * value).

Fixpoint column_index (cols : list string) (c : string) : option nat :=
  match cols with
  | [] => None
  | d :: rest => if ident_eqb d c then Some 0%nat
                 else S <$> column_index rest c
  end.

(** [SELECT c1, ..., cn FROM t]: every name must be a column of the table. *)
Definition select (db : database) (cols : list string) (t : string)
  : result (list row) :=
  tb ← of_option OperationalError (find_table db t);
  idx ← of_option OperationalError
          (mapM (fun c => i ← column_index (tbl_cols tb) c;
                          d ← tbl_cols tb !! i;
                          Some (d, i)) cols);
  Ok (map (fun cells : list value =>
             map (fun '(d, i) => (d, default VNone (cells !! i))) idx)
          (tbl_rows tb)).

(** [SELECT c1 as s, c2 as t FROM t] *)
Definition select_as_s_t (db : database) (c1 c2 : string) (t : string)
  : result (list row) :=
  rows ← select db [c1; c2] t;
  Ok (map (fun r : row => zip ["s"; "t"] (map snd r)) rows).

(** [row[c]] *)
Definition row_getitem (r : row) (c : string) : result value :=
  match List.find (fun dv : string * value => ident_eqb (fst dv) c) r with
  | Some (_, v) => Ok v
  | None => Raise IndexError
  end.

(** [row.keys()] *)
Definition row_keys (r : row) : list string := map fst r.

(** ** Schema resolver *)

Definition infer_table (db : database) (needle_keywords : list string)
  : option string :=
  let tables := table_names db in
  match List.find (fun t => let tl := lower t in
                            existsb (fun k => str_in k tl) needle_keywords)
                  tables with
  | Some t => Some t
  | None => head tables
  end.

(** [PRAGMA table_info(table)]: no rows for a table that does not exist. *)
Definition get_cols (db : database) (table : string) : list string :=
  match find_table db table with
  | Some tb => tbl_cols tb
  | None => []
  end.

Fixpoint find_col (cols : list string) (candidates : list string)
  : option string :=
  match candidates with
  | [] => None
  | cand :: rest =>
      match List.find (fun c => String.eqb cand (lower c)) cols with
      | Some c => Some c
      | None => find_col cols rest
      end
  end.

(** The local function [contains] of [main]. *)
Definition contains (jmp_cols : list string) (parts : list string)
  : option string :=
  List.find (fun c => forallb (fun p => str_in p (lower c)) parts) jmp_cols.

(** ** Command line *)

Record Args := {
  args_out : string;
  args_systems_table : option string;
  args_sys_id_col : option string;
  args_sys_name_col : option string;
  args_sys_x_col : option string;
  args_sys_y_col : option string;
  args_sys_z_col : option string;
  args_jumps_table : option string;
  args_jump_from_col : option string;
  args_jump_to_col : option string
}.

(** ** Arrays and output files *)

Definition UINT_MAX : Z := 4294967295.

(** [array('I').append(v)] *)
Definition array_I_append (a : list Z) (v : Z) : result (list Z) :=
  if ((0 <=? v) && (v <=? UINT_MAX))%Z then Ok (a ++ [v])
  else Raise OverflowError.

(** [array('I').extend(vs)] *)
Fixpoint array_I_extend (a : list Z) (vs : list Z) : result (list Z) :=
  match vs with
  | [] => Ok a
  | v :: rest => a' ← array_I_append a v; array_I_extend a' rest
  end.

(** The C conversion of a double to the [float] an [array('f')] stores:
    rounding to the nearest binary32 number, ties to even. *)
Definition c_float (x : float) : float :=
  match Prim2SF x with
  | S754_finite s m e => SF2Prim (binary_round 24 128 s m e)
  | _ => x
  end.

(** [array('f').extend(vs)] *)
Definition array_f_extend (a : list float) (vs : list float) : list float :=
  a ++ map c_float vs.

(** [d[k] = v] on a [dict], which keeps its keys in insertion order. *)
Fixpoint dict_set (d : list (string * string)) (k v : string)
  : list (string * string) :=
  match d with
  | [] => [(k, v)]
  | (k', v') :: rest =>
      if String.eqb k' k then (k', v) :: rest else (k', v') :: dict_set rest k v
  end.

(** The values handed to [json.dumps]. *)
#[warnings="-register-all"]
Inductive json :=
| JNull
| JInt (n : Z)
| JStr (s : string)
| JObj (fields : list (string * json)).

(** What is written to a file, before it is laid out as bytes or text. *)
Inductive content :=
| BytesI (a : list Z)        (* [array('I').tobytes()] *)
| BytesF (a : list float)    (* [array('f').tobytes()] *)
| Text (j : json).           (* [json.dumps(...)] *)

Record filesystem := {
  fs_dirs : gset string;
  fs_files : gmap string content
}.

(** The computations of [main]: they read and write the file system and
    may raise. *)
Definition M (A : Type) : Type := filesystem -> filesystem * result A.

#[export] Instance M_ret : MRet M := fun A a fs => (fs, Ok a).
#[export] Instance M_bind : MBind M := fun A B f m fs =>
  match m fs with
  | (fs', Ok a) => f a fs'
  | (fs', Raise e) => (fs', Raise e)
  end.

(** A computation that does not touch the file system. *)
Definition lift {A} (r : result A) : M A := fun fs => (fs, r).

(** [out_dir / name] *)
Definition path_join (out_dir name : string) : string :=
  out_dir +:+ "/" +:+ name.

(** [out_dir.mkdir(parents=True, exist_ok=True)] *)
Definition mkdir (out_dir : string) : M unit := fun fs =>
  ({| fs_dirs := {[out_dir]} ∪ fs_dirs fs; fs_files := fs_files fs |}, Ok tt).

(** [(out_dir / name).write_bytes(...)] and [.write_text(...)] *)
Definition write_file (out_dir name : string) (c : content) : M unit := fun fs =>
  ({| fs_dirs := fs_dirs fs;
      fs_files := <[path_join out_dir name := c]> (fs_files fs) |}, Ok tt).

(** ** Record loader *)

(** A loaded system: [(int(sid), nm, xv, yv, zv)]. *)
Definition system : Type := Z * string * float * float * float.

Definition system_id (s : system) : Z :=
  let '(sid, _, _, _, _) := s in sid.

Definition system_xyz (s : system) : float * float * float :=
  let '(_, _, x, y, z) := s in (x, y, z).

Section Loader.
Context {py : Builtins}.

(** [float(row[col]) if col else 0.0] *)
Definition load_coord (r : row) (col : option string) : result float :=
  if truthy col then
    v ← row_getitem r (default "" col);
    of_option CoordError (py_float v)
  else Ok 0%float.

(** [row[name_col] if (name_col and name_col in row.keys()) else str(sid)] *)
Definition load_name (r : row) (name_col : option string) (sid : value)
  : result value :=
  if truthy name_col && bool_decide (default "" name_col ∈ row_keys r)
  then row_getitem r (default "" name_col)
  else Ok (VStr (py_str sid)).

(** The body of the loop of lines 108-120 on one fetched row: [None] when
    the row is skipped by [continue], the tuple to append otherwise. *)
Definition load_row (id_col : string) (name_col x_col y_col z_col : option string)
  (r : row) : result (option system) :=
  sid ← row_getitem r id_col;
  nm ← load_name r name_col sid;
  match nm with
  | VStr nm =>
      if is_filtered_system nm then Ok None
      else
        xv ← load_coord r x_col;
        yv ← load_coord r y_col;
        zv ← load_coord r z_col;
        i ← of_option IdError (py_int sid);
        Ok (Some (i, nm, xv, yv, zv))
  | _ => Raise NameTypeError
  end.

(** The loop of lines 108-120; [systems] and [filtered_count] are the two
    variables it updates. *)
Fixpoint load_systems (id_col : string) (name_col x_col y_col z_col : option string)
  (rows : list row) (systems : list system) (filtered_count : nat)
  : result (list system * nat) :=
  match rows with
  | [] => Ok (systems, filtered_count)
  | r :: rest =>
      o ← load_row id_col name_col x_col y_col z_col r;
      match o with
      | None =>
          load_systems id_col name_col x_col y_col z_col rest
            systems (S filtered_count)
      | Some sy =>
          load_systems id_col name_col x_col y_col z_col rest
            (systems ++ [sy]) filtered_count
      end
  end.

Definition is_not_none (v : value) : bool :=
  match v with
  | VNone => false
  | _ => true
  end.

(** The loop of lines 136-138. *)
Fixpoint load_jumps (rows : list row) (jumps : list (Z * Z))
  : result (list (Z * Z)) :=
  match rows with
  | [] => Ok jumps
  | r :: rest =>
      s ← row_getitem r "s";
      t ← row_getitem r "t";
      if is_not_none s && is_not_none t then
        a ← of_option JumpError (py_int s);
        b ← of_option JumpError (py_int t);
        load_jumps rest (jumps ++ [(a, b)])
      else load_jumps rest jumps
  end.

(** What lines 86-138 leave in the variables of [main]. *)
Record loaded := {
  ld_systems_table : string;
  ld_jumps_table : option string;
  ld_systems : list system;
  ld_filtered_count : nat;
  ld_jumps : list (Z * Z)
}.

Definition candidates_id := ["id"; "system_id"; "solarsystemid"; "smart_object_id"].
Definition candidates_name := ["name"; "system_name"; "label"].
Definition candidates_x := ["x"; "posx"; "position_x"; "world_x"; "centerx"].
Definition candidates_y := ["y"; "posy"; "position_y"; "world_y"; "centery"].
Definition candidates_z := ["z"; "posz"; "position_z"; "world_z"; "centerz"].

(** Lines 122-138. *)
Definition load_all_jumps (args : Args) (db : database) (jumps_table : option string)
  : result (list (Z * Z)) :=
  if truthy jumps_table then
    let jumps_table := default "" jumps_table in
    let jmp_cols := get_cols db jumps_table in
    let source_col :=
      py_or (py_or (py_or (args_jump_from_col args) (contains jmp_cols ["from"; "id"]))
                   (contains jmp_cols ["a"; "id"]))
            (contains jmp_cols ["source"]) in
    let target_col :=
      py_or (py_or (py_or (args_jump_to_col args) (contains jmp_cols ["to"; "id"]))
                   (contains jmp_cols ["b"; "id"]))
            (contains jmp_cols ["target"]) in
    if truthy source_col && truthy target_col then
      rows ← select_as_s_t db (default "" source_col) (default "" target_col)
                jumps_table;
      load_jumps rows []
    else Ok []
  else Ok [].

(** The systems table and its five logical columns, as lines 86-97 resolve
    them. *)
Record schema := {
  sc_table : string;
  sc_id : string;
  sc_name : option string;
  sc_x : option string;
  sc_y : option string;
  sc_z : option string
}.

(** Lines 86-97, the systems table. *)
Definition resolve_systems (args : Args) (db : database) : result schema :=
  let systems_table := py_or (args_systems_table args) (infer_table db ["system"]) in
  if negb (truthy systems_table) then Raise SystemExit
  else
    let systems_table := default "" systems_table in
    let sys_cols := get_cols db systems_table in
    id_col ← (let c := py_or (args_sys_id_col args) (find_col sys_cols candidates_id) in
              if truthy c then Ok (default "" c)
              else of_option IndexError (head sys_cols));
    Ok {| sc_table := systems_table;
          sc_id := id_col;
          sc_name := py_or (args_sys_name_col args) (find_col sys_cols candidates_name);
          sc_x := py_or (args_sys_x_col args) (find_col sys_cols candidates_x);
          sc_y := py_or (args_sys_y_col args) (find_col sys_cols candidates_y);
          sc_z := py_or (args_sys_z_col args) (find_col sys_cols candidates_z) |}.

(** Lines 100-105: the projection query and its rows. *)
Definition fetch_systems (db : database) (sc : schema) : result (list row) :=
  let opt c := if truthy c then [default "" c] else [] in
  let cols := [sc_id sc] ++ opt (sc_name sc) ++ opt (sc_x sc)
              ++ opt (sc_y sc) ++ opt (sc_z sc) in
  select db cols (sc_table sc).

(** Lines 86-138: resolve the schema, load the systems, load the jumps. *)
Definition load (args : Args) (db : database) : result loaded :=
  let jumps_table :=
    py_or (args_jumps_table args) (infer_table db ["jump"; "gate"; "link"]) in
  sc ← resolve_systems args db;
  rows ← fetch_systems db sc;
  '(systems, filtered_count) ←
    load_systems (sc_id sc) (sc_name sc) (sc_x sc) (sc_y sc) (sc_z sc)
      rows [] 0%nat;
  jumps ← load_all_jumps args db jumps_table;
  Ok {| ld_systems_table := sc_table sc;
        ld_jumps_table := jumps_table;
        ld_systems := systems;
        ld_filtered_count := filtered_count;
        ld_jumps := jumps |}.

End Loader.

(** ** Filter, transform and asset writer *)

Section Main.
Context {py : Builtins}.

(** The loop of lines 150-154; [ids], [positions] and [names] are the three
    variables it updates. *)
Fixpoint build_arrays (systems : list system) (ids : list Z)
  (positions : list float) (names : list (string * string))
  : result (list Z * list float * list (string * string)) :=
  match systems with
  | [] => Ok (ids, positions, names)
  | (sid, nm, x, y, z) :: rest =>
      ids ← array_I_append ids sid;
      let names := dict_set names (py_str (VInt sid)) nm in
      let '(xt, yt, zt) := transform_xyz x y z in
      let positions := array_f_extend positions [xt; yt; zt] in
      build_arrays rest ids positions names
  end.

(** The loop of lines 159-163; [flat_jumps] and [filtered_jumps] are the two
    variables it updates. *)
Fixpoint filter_jumps (valid_system_ids : gset Z) (jumps : list (Z * Z))
  (flat_jumps : list Z) (filtered_jumps : nat) : result (list Z * nat) :=
  match jumps with
  | [] => Ok (flat_jumps, filtered_jumps)
  | (a, b) :: rest =>
      if bool_decide (a ∈ valid_system_ids) && bool_decide (b ∈ valid_system_ids)
      then
        flat_jumps ← array_I_extend flat_jumps [a; b];
        filter_jumps valid_system_ids rest flat_jumps filtered_jumps
      else filter_jumps valid_system_ids rest flat_jumps (S filtered_jumps)
  end.

(** What lines 142-163 leave in the variables of [main]. *)
Record assets := {
  as_ids : list Z;
  as_positions : list float;
  as_names : list (string * string);
  as_flat_jumps : list Z;
  as_filtered_jumps : nat
}.

(** Lines 142-163. *)
Definition build (ld : loaded) : result assets :=
  let valid_system_ids : gset Z := list_to_set (map system_id (ld_systems ld)) in
  '(ids, positions, names) ← build_arrays (ld_systems ld) [] [] [];
  '(flat_jumps, filtered_jumps) ←
    filter_jumps valid_system_ids (ld_jumps ld) [] 0%nat;
  Ok {| as_ids := ids;
        as_positions := positions;
        as_names := names;
        as_flat_jumps := flat_jumps;
        as_filtered_jumps := filtered_jumps |}.

Definition JLen {A} (l : list A) : json := JInt (Z.of_nat (length l)).

(** The dictionary of lines 171-186. *)
Definition manifest (systems : list system) (jumps : list (Z * Z)) : json :=
  JObj [
    ("counts", JObj [
      ("systems", JLen systems);
      ("jumps", JLen jumps)]);
    ("schema", JObj [
      ("systems_positions.bin",
        JObj [("type", JStr "Float32Array"); ("components", JInt 3)]);
      ("systems_ids.bin", JObj [("type", JStr "Uint32Array")]);
      ("systems_names.json", JObj [("type", JStr "MapIdToName")]);
      ("jumps.bin",
        JObj [("type", JStr "Uint32Array"); ("components", JInt 2);
              ("meaning", JStr "pairs of system IDs [a,b]")])]);
    ("coord_system", JObj [
      ("units", JStr "lightyears");
      ("transform", JStr "Rx(-90deg), i.e., (x,y,z)->(x,z,-y)")])].

(** The dictionary printed at lines 189-197, without its last entry (the
    resolved path of the output directory). *)
Definition summary (ld : loaded) (a : assets) : json :=
  JObj [
    ("systems_table", JStr (ld_systems_table ld));
    ("jumps_table", from_option JStr JNull (ld_jumps_table ld));
    ("systems_count", JLen (ld_systems ld));
    ("filtered_systems", JInt (Z.of_nat (ld_filtered_count ld)));
    ("jumps_count", JInt (Z.of_nat (length (as_flat_jumps a)) / 2));
    ("filtered_jumps", JInt (Z.of_nat (as_filtered_jumps a)))].

Definition names_json (names : list (string * string)) : json :=
  JObj (map (fun kv : string * string => (kv.1, JStr kv.2)) names).

(** Lines 166-187. *)
Definition write_assets (out_dir : string) (ld : loaded) (a : assets) : M unit :=
  write_file out_dir "systems_positions.bin" (BytesF (as_positions a));;
  write_file out_dir "systems_ids.bin" (BytesI (as_ids a));;
  write_file out_dir "systems_names.json" (Text (names_json (as_names a)));;
  write_file out_dir "jumps.bin" (BytesI (as_flat_jumps a));;
  write_file out_dir "manifest.json"
    (Text (manifest (ld_systems ld) (ld_jumps ld))).

(** [main()], from the parsed arguments and the opened database; its value
    is the summary it prints. *)
Definition main (args : Args) (db : database) : M json :=
  let out_dir := args_out args in
  mkdir out_dir;;
  ld ← lift (load args db);
  a ← lift (build ld);
  write_assets out_dir ld a;;
  mret (summary ld a).

End Main.

(** The file system after the five writes of lines 166-187. *)
Definition written (out_dir : string) (ld : loaded) (a : assets)
  (fs : filesystem) : filesystem :=
  {| fs_dirs := fs_dirs fs;
     fs_files :=
       <[path_join out_dir "manifest.json" :=
           Text (manifest (ld_systems ld) (ld_jumps ld))]>
       (<[path_join out_dir "jumps.bin" := BytesI (as_flat_jumps a)]>
       (<[path_join out_dir "systems_names.json" :=
            Text (names_json (as_names a))]>
       (<[path_join out_dir "systems_ids.bin" := BytesI (as_ids a)]>
       (<[path_join out_dir "systems_positions.bin" :=
            BytesF (as_positions a)]> (fs_files fs))))) |}.

(** ** An instance of the builtins

    It follows CPython on [None], [int] and [float] arguments of [int] and
    [float], and on [None], [int] and [str] arguments of [str].  Numerals
    held in text or bytes are not parsed (the instance rejects them) and the
    [repr] of a float or of bytes is a fixed text.  The theorems hold for
    every instance; this one runs the model on concrete databases. *)

(** [int(f)]: truncation towards zero. *)
Definition int_of_float (f : float) : option Z :=
  match Prim2SF f with
  | S754_zero _ => Some 0
  | S754_finite s m e =>
      let a := if (0 <=? e)%Z then Z.pos m * 2 ^ e else Z.pos m / 2 ^ (- e) in
      Some (if s then - a else a)
  | _ => None
  end.

(** [float(n)]: the nearest double. *)
Definition float_of_int (n : Z) : option float :=
  let f := SF2Prim (binary_normalize prec emax n 0 false) in
  if is_infinity f then None else Some f.

Definition cpython : Builtins := {|
  py_int v := match v with
              | VInt n => Some n
              | VFloat f => int_of_float f
              | _ => None
              end;
  py_float v := match v with
                | VInt n => float_of_int n
                | VFloat f => Some f
                | _ => None
                end;
  py_str v := match v with
              | VNone => "None"
              | VInt n => pretty n
              | VStr s => s
              | VFloat _ => "<float>"
              | VBytes _ => "<bytes>"
              end
|}.

(** ** Definitions used to state the properties *)

(** The exclusion rule in the words of the specification: the whole name is
    the letter V (either case), a hyphen and three digits, or the letters A
    and D (either case) and three digits. *)
Definition letter_eqb (upper lower_ c : ascii) : bool :=
  Ascii.eqb c upper || Ascii.eqb c lower_.

Definition spec_V_ddd (name : string) : bool :=
  match name with
  | String v (String h (String d1 (String d2 (String d3 EmptyString)))) =>
      letter_eqb "V" "v" v && Ascii.eqb h "-"
      && is_digit d1 && is_digit d2 && is_digit d3
  | _ => false
  end.

Definition spec_AD_ddd (name : string) : bool :=
  match name with
  | String a (String d (String d1 (String d2 (String d3 EmptyString)))) =>
      letter_eqb "A" "a" a && letter_eqb "D" "d" d
      && is_digit d1 && is_digit d2 && is_digit d3
  | _ => false
  end.

Definition spec_excluded (name : string) : bool :=
  spec_V_ddd name || spec_AD_ddd name.

Definition nl : string := String newline EmptyString.

(** A float that is not a NaN, on its specification. *)
Definition is_number (x : spec_float) : Prop := x <> S754_nan.

(** The flat jump array read back as pairs. *)
Fixpoint pairs (flat : list Z) : list (Z * Z) :=
  match flat with
  | a :: b :: rest => (a, b) :: pairs rest
  | _ => []
  end.

Definition flatten_pairs (l : list (Z * Z)) : list Z :=
  flat_map (fun ab : Z * Z => [ab.1; ab.2]) l.

(** Both ends of a jump are in the id array. *)
Definition survives (ids : list Z) (ab : Z * Z) : bool :=
  bool_decide (ab.1 ∈ ids) && bool_decide (ab.2 ∈ ids).

Definition fits_uint32 (v : Z) : Prop := 0 <= v < 2 ^ 32.

(** The three stored positions of a system. *)
Definition stored_xyz (s : system) : list float :=
  let '(x, y, z) := system_xyz s in
  let '(xt, yt, zt) := transform_xyz x y z in
  [c_float xt; c_float yt; c_float zt].

(** [j[k]] on a JSON object. *)
Definition json_field (k : string) (j : json) : option json :=
  match j with
  | JObj fields => snd <$> List.find (fun kv => String.eqb kv.1 k) fields
  | _ => None
  end.

Definition asset_files : list string :=
  ["systems_positions.bin"; "systems_ids.bin"; "systems_names.json";
   "jumps.bin"; "manifest.json"].

(** ** Example inputs *)

Definition no_overrides (out : string) : Args := {|
  args_out := out;
  args_systems_table := None; args_sys_id_col := None;
  args_sys_name_col := None; args_sys_x_col := None;
  args_sys_y_col := None; args_sys_z_col := None;
  args_jumps_table := None; args_jump_from_col := None;
  args_jump_to_col := None
|}.

Definition empty_fs : filesystem := {| fs_dirs := ∅; fs_files := ∅ |}.

(** The end-to-end scenario of the specification. *)
Definition scenario_db : database := [
  {| tbl_name := "SolarSystems";
     tbl_cols := ["solarSystemId"; "name"; "centerX"; "centerY"; "centerZ"];
     tbl_rows := [
       [VInt 1; VStr "Sol"; VInt 0; VInt 0; VInt 0];
       [VInt 2; VStr "V-001"; VInt 0; VInt 0; VInt 0];
       [VInt 3; VStr "Alpha"; VFloat METERS_PER_LY; VInt 0; VInt 0]] |};
  {| tbl_name := "Jumps";
     tbl_cols := ["fromSystemId"; "toSystemId"];
     tbl_rows := [
       [VInt 1; VInt 2]; [VInt 1; VInt 3]; [VInt 3; VInt 99]] |}].

(** One table, whose name holds none of "jump", "gate", "link". *)
Definition systems_only_db : database := [
  {| tbl_name := "SolarSystems";
     tbl_cols := ["smart_object_id"; "name"; "x"; "y"; "z"];
     tbl_rows := [[VInt 1; VStr "Sol"; VInt 0; VInt 0; VInt 0]] |}].

(** A placeholder row whose id and coordinates cannot be coerced. *)
Definition placeholder_db : database := [
  {| tbl_name := "systems";
     tbl_cols := ["id"; "name"; "x"; "y"; "z"];
     tbl_rows := [
       [VNone; VStr "V-001"; VNone; VStr "n/a"; VNone];
       [VInt 7; VStr "Sol"; VInt 0; VInt 0; VInt 0]] |}].

(** A retained row whose id is NULL. *)
Definition null_id_db : database := [
  {| tbl_name := "systems";
     tbl_cols := ["id"; "name"];
     tbl_rows := [[VInt 7; VStr "Sol"]; [VNone; VStr "Alpha"]] |}].

(** The run of the scenario from an empty file system. *)
Definition scenario_args : Args := no_overrides "out".

Definition scenario_fs : filesystem :=
  (main (py:=cpython) scenario_args scenario_db empty_fs).1.

Definition scenario_summary : json :=
  JObj [
    ("systems_table", JStr "SolarSystems");
    ("jumps_table", JStr "Jumps");
    ("systems_count", JInt 2);
    ("filtered_systems", JInt 1);
    ("jumps_count", JInt 1);
    ("filtered_jumps", JInt 2)].

(** What the scenario loads and builds. *)
Definition scenario_loaded : loaded := {|
  ld_systems_table := "SolarSystems";
  ld_jumps_table := Some "Jumps";
  ld_systems := [(1, "Sol", 0%float, 0%float, 0%float);
                 (3, "Alpha", METERS_PER_LY, 0%float, 0%float)];
  ld_filtered_count := 1;
  ld_jumps := [(1, 2); (1, 3); (3, 99)]
|}.

Definition scenario_assets : assets := {|
  as_ids := [1; 3];
  as_positions := [0%float; 0%float; (-0)%float; 1%float; 0%float; (-0)%float];
  as_names := [("1", "Sol"); ("3", "Alpha")];
  as_flat_jumps := [1; 3];
  as_filtered_jumps := 2
|}.

(** The first row of [placeholder_db] as the projection query returns it. *)
Definition placeholder_row : row :=
  [("id", VNone); ("name", VStr "V-001"); ("x", VNone); ("y", VStr "n/a");
   ("z", VNone)].

(** ** More definitions used to state properties *)

Definition system_name (s : system) : string :=
  let '(_, nm, _, _, _) := s in nm.

(** [d.get(k)] on a [dict]. *)
Fixpoint dict_get (d : list (string * string)) (k : string) : option string :=
  match d with
  | [] => None
  | (k', v) :: rest => if String.eqb k' k then Some v else dict_get rest k
  end.

(** The test of [infer_table] on one table name. *)
Definition table_matches (needle_keywords : list string) (t : string) : bool :=
  existsb (fun k => str_in k (lower t)) needle_keywords.

(** The test of [contains] on one column name. *)
Definition column_contains (parts : list string) (c : string) : bool :=
  forallb (fun p => str_in p (lower c)) parts.

(** inspect_db.py, line 27: the columns reported as position-related. *)
Definition pos_cols (cols : list string) : list string :=
  List.filter
    (fun c => existsb (fun x => str_in x (lower c)) ["x"; "y"; "z"; "center"; "pos"])
    cols.

(** The key under which line 152 files the name of a system. *)
Definition name_key {py : Builtins} (sy : system) : string :=
  py_str (VInt (system_id sy)).

(** The [names] dictionary after the loop of lines 150-154 has run over
    [systems], starting from [names]. *)
Definition names_after {py : Builtins} (systems : list system)
  (names : list (string * string)) : list (string * string) :=
  fold_left (fun d sy => dict_set d (name_key sy) (system_name sy))
    systems names.

(** What the body of the loop of lines 136-138 makes of one row: nothing
    when an endpoint is [None], the pair of the two coerced endpoints
    otherwise. *)
Definition jump_of_row {py : Builtins} (r : row) (o : option (Z * Z)) : Prop :=
  exists s t,
    row_getitem r "s" = Ok s /\ row_getitem r "t" = Ok t
    /\ match o with
       | None => s = VNone \/ t = VNone
       | Some (a, b) =>
           s <> VNone /\ t <> VNone /\ py_int s = Some a /\ py_int t = Some b
       end.

(** The rows of the scenario, as the query of line 105 returns them. *)
Definition scenario_rows : list row := [
  [("solarSystemId", VInt 1); ("name", VStr "Sol"); ("centerX", VInt 0);
   ("centerY", VInt 0); ("centerZ", VInt 0)];
  [("solarSystemId", VInt 2); ("name", VStr "V-001"); ("centerX", VInt 0);
   ("centerY", VInt 0); ("centerZ", VInt 0)];
  [("solarSystemId", VInt 3); ("name", VStr "Alpha");
   ("centerX", VFloat METERS_PER_LY); ("centerY", VInt 0);
   ("centerZ", VInt 0)]].

(** Two loaded systems with the same id. *)
Definition renamed_loaded : loaded := {|
  ld_systems_table := "systems";
  ld_jumps_table := None;
  ld_systems := [(1, "Sol", 0%float, 0%float, 0%float);
                 (1, "Sun", 0%float, 0%float, 0%float)];
  ld_filtered_count := 0;
  ld_jumps := []
|}.

Definition renamed_assets : assets := {|
  as_ids := [1; 1];
  as_positions := [0%float; 0%float; (-0)%float; 0%float; 0%float; (-0)%float];
  as_names := [("1", "Sun")];
  as_flat_jumps := [];
  as_filtered_jumps := 0
|}.

(** A database with three tables, the systems table not the first one. *)
Definition three_tables_db : database := [
  {| tbl_name := "Regions"; tbl_cols := ["regionId"; "Label"];
     tbl_rows := [[VInt 10; VStr "North"]] |};
  {| tbl_name := "SolarSystems";
     tbl_cols := ["Name"; "solarSystemId"; "ID"; "centerX"; "centerY"; "centerZ"];
     tbl_rows := [[VStr "Sol"; VInt 30000001; VInt 1; VInt 0; VInt 0; VInt 0];
                  [VStr "AD123"; VInt 30000002; VInt 2; VInt 0; VInt 0; VInt 0]] |};
  {| tbl_name := "StarGates"; tbl_cols := ["fromSystemId"; "toSystemId"];
     tbl_rows := [[VInt 1; VNone]; [VInt 1; VInt 1]] |}].

(** * Properties *)

(** ** Coordinate transform *)

Section TransformFacts.
Local Open Scope float_scope.

(** *** Sign symmetry of the rounded quotient *)

Lemma binary_round_aux_negb prec emax s m e l :
  binary_round_aux prec emax (negb s) m e l
  = SFopp (binary_round_aux prec emax s m e l).
Proof.
  unfold binary_round_aux.
  destruct (shr_fexp prec emax m e l) as [mrs1 e1].
  destruct (shr_fexp prec emax _ e1 loc_Exact) as [mrs2 e2].
  destruct (shr_m mrs2); simpl; auto.
  destruct (e2 <=? emax - prec)%Z; reflexivity.
Qed.

Lemma SFdiv_opp_l prec emax x y :
  SFdiv prec emax (SFopp x) y = SFopp (SFdiv prec emax x y).
Proof.
  destruct x as [sx|sx| |sx mx ex], y as [sy|sy| |sy my ey]; simpl; auto;
    try (destruct sx, sy; reflexivity).
  destruct (SFdiv_core_binary prec emax (Z.pos mx) ex (Z.pos my) ey)
    as [[mz ez] lz].
  rewrite <- binary_round_aux_negb. destruct sx, sy; reflexivity.
Qed.

Lemma div_opp_l (x y : float) : (- x) / y = - (x / y).
Proof.
  apply Prim2SF_inj. rewrite div_spec, !opp_spec, div_spec.
  apply SFdiv_opp_l.
Qed.

(** *** A finite number divided by the constant is a number *)

Lemma shr_1_nonneg mrs : (0 <= shr_m mrs)%Z -> (0 <= shr_m (shr_1 mrs))%Z.
Proof.
  destruct mrs as [m r s]; simpl.
  destruct m as [|p|p]; simpl; try lia; destruct p; simpl; lia.
Qed.

Lemma iter_pos_shr_1_nonneg p mrs :
  (0 <= shr_m mrs)%Z -> (0 <= shr_m (SpecFloat.iter_pos shr_1 p mrs))%Z.
Proof.
  revert mrs; induction p; intros mrs H; simpl; auto using shr_1_nonneg.
Qed.

Lemma shr_fexp_nonneg prec emax m e l :
  (0 <= m)%Z -> (0 <= shr_m (fst (shr_fexp prec emax m e l)))%Z.
Proof.
  intros Hm. unfold shr_fexp, shr.
  assert (H0 : (0 <= shr_m (shr_record_of_loc m l))%Z).
  { destruct l as [|[]]; simpl; exact Hm. }
  destruct (fexp prec emax (Zdigits2 m + e) - e)%Z; simpl; auto.
  apply iter_pos_shr_1_nonneg; exact H0.
Qed.

Lemma round_nearest_even_nonneg m l :
  (0 <= m)%Z -> (0 <= round_nearest_even m l)%Z.
Proof.
  intros Hm. unfold round_nearest_even.
  destruct l as [|[]]; try lia. destruct (Z.even m); lia.
Qed.

Lemma binary_round_aux_number prec emax s m e l :
  (0 <= m)%Z -> is_number (binary_round_aux prec emax s m e l).
Proof.
  intros Hm. unfold binary_round_aux, is_number.
  pose proof (shr_fexp_nonneg prec emax m e l Hm) as H1.
  destruct (shr_fexp prec emax m e l) as [mrs1 e1]; simpl in H1.
  pose proof (shr_fexp_nonneg prec emax _ e1 loc_Exact
                (round_nearest_even_nonneg _ (loc_of_shr_record mrs1) H1)) as H2.
  destruct (shr_fexp prec emax _ e1 loc_Exact) as [mrs2 e2]; simpl in H2.
  destruct (shr_m mrs2); try lia; try discriminate.
  destruct (e2 <=? emax - prec)%Z; discriminate.
Qed.

Lemma SFdiv_core_binary_nonneg prec emax mx ex my ey :
  (0 <= fst (fst (SFdiv_core_binary prec emax (Z.pos mx) ex (Z.pos my) ey)))%Z.
Proof.
  unfold SFdiv_core_binary.
  set (e' := Z.min _ _). set (s := (ex - ey - e')%Z).
  set (m' := match s with 0%Z => Z.pos mx | Z.pos _ => Z.shiftl (Z.pos mx) s
                      | Z.neg _ => 0%Z end).
  assert (Hm' : (0 <= m')%Z).
  { unfold m'. destruct s; try lia. apply Z.shiftl_nonneg. lia. }
  pose proof (Z_div_mod m' (Z.pos my) eq_refl) as H.
  destruct (Z.div_eucl m' (Z.pos my)) as [q r]; simpl. nia.
Qed.

Lemma SFdiv_finite_number prec emax x sy my ey :
  (exists s, x = S754_zero s) \/ (exists s m e, x = S754_finite s m e) ->
  is_number (SFdiv prec emax x (S754_finite sy my ey)).
Proof.
  intros [[s ->]|(s & m & e & ->)]; simpl; [discriminate|].
  pose proof (SFdiv_core_binary_nonneg prec emax m e my ey) as H.
  destruct (SFdiv_core_binary prec emax (Z.pos m) e (Z.pos my) ey)
    as [[mz ez] lz]; simpl in H.
  apply binary_round_aux_number; exact H.
Qed.

Lemma SFeqb_refl x : is_number x -> SFeqb x x = true.
Proof.
  unfold is_number, SFeqb. destruct x as [s|s| |s m e]; simpl; try congruence.
  - destruct s; reflexivity.
  - rewrite Z.compare_refl.
    fold (Pos.compare m m). rewrite Pos.compare_refl. destruct s; reflexivity.
Qed.

Lemma is_finite_cases x :
  is_finite x = true ->
  (exists s, Prim2SF x = S754_zero s)
  \/ (exists s m e, Prim2SF x = S754_finite s m e).
Proof.
  unfold is_finite, is_nan, is_infinity.
  rewrite !FloatAxioms.eqb_spec, FloatAxioms.abs_spec.
  destruct (Prim2SF x) as [s|s| |s m e] eqn:E; intros H.
  - left; eauto.
  - exfalso. rewrite orb_true_r in H. discriminate.
  - discriminate.
  - right; eauto.
Qed.

Lemma div_METERS_PER_LY_eqb x :
  is_finite x = true -> (x / METERS_PER_LY =? x / METERS_PER_LY) = true.
Proof.
  intros H. rewrite FloatAxioms.eqb_spec. apply SFeqb_refl. rewrite div_spec.
  change (Prim2SF METERS_PER_LY)
    with (S754_finite false 4730365236290400 1).
  apply SFdiv_finite_number, is_finite_cases, H.
Qed.

Lemma opp_eqb x y : (x =? y) = true -> (- x =? - y) = true.
Proof.
  rewrite !FloatAxioms.eqb_spec, !opp_spec. unfold SFeqb.
  destruct (Prim2SF x) as [s|s| |s m e], (Prim2SF y) as [s'|s'| |s' m' e'];
    simpl; auto; destruct s, s'; simpl; auto;
    destruct (e ?= e')%Z; auto; destruct (Pos.compare_cont Eq m m'); auto.
Qed.

Lemma transform_xyz_eq xm ym zm :
  transform_xyz xm ym zm
  = (xm / METERS_PER_LY, zm / METERS_PER_LY, (- ym) / METERS_PER_LY).
Proof. unfold transform_xyz. rewrite div_opp_l. reflexivity. Qed.

(** C1. [transform_xyz(xm, ym, zm)] is [(xm/L, zm/L, -ym/L)] with [L] the
    constant [METERS_PER_LY]: the two triples are the same floats, and on
    finite inputs they are equal under Python's [==].  At the four inputs of
    the specification the result compares equal to [(0,0,0)], [(1,0,0)],
    [(1,3,-2)] and [(-5,-3,-10)]. *)
Theorem transform_xyz_spec :
  (forall xm ym zm,
     transform_xyz xm ym zm
     = (xm / METERS_PER_LY, zm / METERS_PER_LY, (- ym) / METERS_PER_LY))
  /\ (forall xm ym zm,
        is_finite xm = true -> is_finite ym = true -> is_finite zm = true ->
        triple_eqb (transform_xyz xm ym zm)
          (xm / METERS_PER_LY, zm / METERS_PER_LY, (- ym) / METERS_PER_LY)
        = true)
  /\ triple_eqb (transform_xyz 0 0 0) (0, 0, 0) = true
  /\ triple_eqb (transform_xyz METERS_PER_LY 0 0) (1, 0, 0) = true
  /\ triple_eqb
       (transform_xyz METERS_PER_LY (METERS_PER_LY * 2) (METERS_PER_LY * 3))
       (1, 3, -2) = true
  /\ triple_eqb
       (transform_xyz (- METERS_PER_LY * 5) (METERS_PER_LY * 10)
          (- METERS_PER_LY * 3))
       (-5, -3, -10) = true.
Proof.
  split; [exact transform_xyz_eq|].
  split; [|repeat split; vm_compute; reflexivity].
  intros xm ym zm Hx Hy Hz. unfold triple_eqb, transform_xyz.
  rewrite div_opp_l.
  rewrite (div_METERS_PER_LY_eqb xm Hx), (div_METERS_PER_LY_eqb zm Hz).
  rewrite (opp_eqb _ _ (div_METERS_PER_LY_eqb ym Hy)). reflexivity.
Qed.

(** The second part of C1 at the finite triple [(1, 2, 3)]. *)
Lemma transform_xyz_spec_witness :
  triple_eqb (transform_xyz 1 2 3)
    (1 / METERS_PER_LY, 3 / METERS_PER_LY, (- 2) / METERS_PER_LY) = true.
Proof.
  apply (proj1 (proj2 transform_xyz_spec) 1 2 3); reflexivity.
Defined.

End TransformFacts.

(** ** Name filter *)

Lemma literal_V c : literal_eqb true "V" c = letter_eqb "V" "v" c.
Proof. destruct c as [[] [] [] [] [] [] [] []]; reflexivity. Qed.

Lemma literal_A c : literal_eqb true "A" c = letter_eqb "A" "a" c.
Proof. destruct c as [[] [] [] [] [] [] [] []]; reflexivity. Qed.

Lemma literal_D c : literal_eqb true "D" c = letter_eqb "D" "d" c.
Proof. destruct c as [[] [] [] [] [] [] [] []]; reflexivity. Qed.

Lemma literal_hyphen c : literal_eqb true "-" c = Ascii.eqb c "-".
Proof. destruct c as [[] [] [] [] [] [] [] []]; reflexivity. Qed.

Lemma at_end_iff t : at_end t = true <-> t = EmptyString \/ t = nl.
Proof.
  destruct t as [|c [|c' t]]; simpl.
  - tauto.
  - rewrite Ascii.eqb_eq. unfold nl. split.
    + intros ->. now right.
    + intros [?|?]; congruence.
  - split; [discriminate|]. unfold nl. intros [?|?]; congruence.
Qed.

(** What [re.match(r'^V-\d{3}$', s, re.IGNORECASE)] computes. *)
Lemma re_match_V s :
  re_match pattern_V s true
  = match s with
    | String v (String h (String d1 (String d2 (String d3 t)))) =>
        letter_eqb "V" "v" v && Ascii.eqb h "-"
        && is_digit d1 && is_digit d2 && is_digit d3 && at_end t
    | _ => false
    end.
Proof.
  unfold re_match, pattern_V; simpl sre_expand. cbn [sre_match andb].
  destruct s as [|v [|h [|d1 [|d2 [|d3 t]]]]];
    cbn [sre_match andb]; rewrite ?literal_V, ?literal_hyphen, ?andb_false_r;
    try reflexivity.
  rewrite andb_true_r, !andb_assoc. reflexivity.
Qed.

(** What [re.match(r'^AD\d{3}$', s, re.IGNORECASE)] computes. *)
Lemma re_match_AD s :
  re_match pattern_AD s true
  = match s with
    | String a (String d (String d1 (String d2 (String d3 t)))) =>
        letter_eqb "A" "a" a && letter_eqb "D" "d" d
        && is_digit d1 && is_digit d2 && is_digit d3 && at_end t
    | _ => false
    end.
Proof.
  unfold re_match, pattern_AD; simpl sre_expand. cbn [sre_match andb].
  destruct s as [|a [|d [|d1 [|d2 [|d3 t]]]]];
    cbn [sre_match andb]; rewrite ?literal_A, ?literal_D, ?andb_false_r;
    try reflexivity.
  rewrite andb_true_r, !andb_assoc. reflexivity.
Qed.

Lemma is_filtered_system_orb name :
  is_filtered_system name
  = re_match pattern_V name true || re_match pattern_AD name true.
Proof.
  unfold is_filtered_system.
  destruct (re_match pattern_V name true), (re_match pattern_AD name true);
    reflexivity.
Qed.

Ltac split_name s :=
  destruct s as [|?c1 [|?c2 [|?c3 [|?c4 [|?c5 [|?c6 s]]]]]].

Lemma re_match_V_iff name :
  re_match pattern_V name true = true
  <-> spec_V_ddd name = true
      \/ exists stem, name = stem +:+ nl /\ spec_V_ddd stem = true.
Proof.
  rewrite re_match_V. split.
  - destruct name as [|v [|h [|d1 [|d2 [|d3 t]]]]]; try discriminate.
    rewrite andb_true_iff, at_end_iff. intros [Hf [->| ->]].
    + left. exact Hf.
    + right. exists (String v (String h (String d1 (String d2 (String d3 ""))))).
      split; [reflexivity|exact Hf].
  - intros [Hs|(stem & -> & Hs)].
    + split_name name; try discriminate. simpl in Hs.
      rewrite Hs. reflexivity.
    + split_name stem; try discriminate. simpl in Hs. simpl.
      rewrite Hs. reflexivity.
Qed.

Lemma re_match_AD_iff name :
  re_match pattern_AD name true = true
  <-> spec_AD_ddd name = true
      \/ exists stem, name = stem +:+ nl /\ spec_AD_ddd stem = true.
Proof.
  rewrite re_match_AD. split.
  - destruct name as [|a [|d [|d1 [|d2 [|d3 t]]]]]; try discriminate.
    rewrite andb_true_iff, at_end_iff. intros [Hf [->| ->]].
    + left. exact Hf.
    + right. exists (String a (String d (String d1 (String d2 (String d3 ""))))).
      split; [reflexivity|exact Hf].
  - intros [Hs|(stem & -> & Hs)].
    + split_name name; try discriminate. simpl in Hs.
      rewrite Hs. reflexivity.
    + split_name stem; try discriminate. simpl in Hs. simpl.
      rewrite Hs. reflexivity.
Qed.

(** C2, on the code.  ["V-001"] followed by a newline is not, as a whole, a
    V, a hyphen and three digits, and ["AD001"] followed by a newline is not
    AD and three digits; [is_filtered_system] excludes both, because [$]
    also holds just before a newline that ends the name. *)
Theorem is_filtered_system_excludes_trailing_newline :
  is_filtered_system ("V-001" +:+ nl) = true
  /\ spec_excluded ("V-001" +:+ nl) = false
  /\ is_filtered_system ("AD001" +:+ nl) = true
  /\ spec_excluded ("AD001" +:+ nl) = false.
Proof. repeat split; vm_compute; reflexivity. Qed.

(** What the code computes on names of code points below 256:
    [is_filtered_system] holds of a name exactly when the name, or the name
    without one final newline, is as a whole the letter V, a hyphen and three
    digits, or the letters AD and three digits, letters in either case.
    ["V-001"], ["v-999"], ["AD001"], ["ad123"] are excluded; ["V-1"],
    ["V-0001"], ["ADX001"], ["Alpha-001"] are retained. *)
Theorem is_filtered_system_spec :
  (forall name,
     is_filtered_system name = true
     <-> spec_excluded name = true
         \/ exists stem, name = stem +:+ nl /\ spec_excluded stem = true)
  /\ map is_filtered_system ["V-001"; "v-999"; "AD001"; "ad123"]
     = [true; true; true; true]
  /\ map is_filtered_system ["V-1"; "V-0001"; "ADX001"; "Alpha-001"]
     = [false; false; false; false].
Proof.
  split; [|split; reflexivity].
  intros name. rewrite is_filtered_system_orb, orb_true_iff.
  rewrite re_match_V_iff, re_match_AD_iff. unfold spec_excluded.
  rewrite orb_true_iff. split.
  - intros [[?|(stem & ? & ?)]|[?|(stem & ? & ?)]]; auto.
    + right. exists stem. rewrite orb_true_iff. auto.
    + right. exists stem. rewrite orb_true_iff. auto.
  - intros [[?|?]|(stem & ? & Hs)]; auto.
    rewrite orb_true_iff in Hs. destruct Hs; eauto.
Qed.

(** ** The file system *)

Lemma append_inj_r (p a b : string) : p +:+ a = p +:+ b -> a = b.
Proof. induction p as [|c p IH]; simpl; [auto|]. intros E. injection E. auto. Qed.

Lemma path_join_inj out n1 n2 : path_join out n1 = path_join out n2 -> n1 = n2.
Proof. unfold path_join. intros E. do 2 apply append_inj_r in E. exact E. Qed.

Lemma write_assets_eq out ld a fs :
  write_assets out ld a fs = (written out ld a fs, Ok tt).
Proof. reflexivity. Qed.

Ltac lookup_written :=
  unfold written; cbn [fs_files];
  repeat (rewrite lookup_insert_ne
            by (let E := fresh in intros E; apply path_join_inj in E;
                discriminate E));
  try rewrite lookup_insert_eq; try reflexivity.

Lemma written_lookup out ld a fs :
  fs_files (written out ld a fs) !! path_join out "systems_positions.bin"
    = Some (BytesF (as_positions a))
  /\ fs_files (written out ld a fs) !! path_join out "systems_ids.bin"
     = Some (BytesI (as_ids a))
  /\ fs_files (written out ld a fs) !! path_join out "systems_names.json"
     = Some (Text (names_json (as_names a)))
  /\ fs_files (written out ld a fs) !! path_join out "jumps.bin"
     = Some (BytesI (as_flat_jumps a))
  /\ fs_files (written out ld a fs) !! path_join out "manifest.json"
     = Some (Text (manifest (ld_systems ld) (ld_jumps ld))).
Proof. repeat split; lookup_written. Qed.

(** ** Arrays *)

Lemma fits_uint32_test v :
  ((0 <=? v) && (v <=? UINT_MAX))%Z = true <-> fits_uint32 v.
Proof. unfold fits_uint32, UINT_MAX. rewrite andb_true_iff. lia. Qed.

Lemma array_I_append_ok a v :
  fits_uint32 v -> array_I_append a v = Ok (a ++ [v]).
Proof.
  intros Hv. unfold array_I_append.
  apply fits_uint32_test in Hv. rewrite Hv. reflexivity.
Qed.

Lemma array_I_append_overflow a v :
  ~ fits_uint32 v -> array_I_append a v = Raise OverflowError.
Proof.
  intros Hv. unfold array_I_append.
  destruct ((0 <=? v) && (v <=? UINT_MAX))%Z eqn:E; [|reflexivity].
  apply fits_uint32_test in E. contradiction.
Qed.

Lemma array_I_append_inv a v a' :
  array_I_append a v = Ok a' -> fits_uint32 v /\ a' = a ++ [v].
Proof.
  unfold array_I_append.
  destruct ((0 <=? v) && (v <=? UINT_MAX))%Z eqn:E; [|discriminate].
  apply fits_uint32_test in E. intros [= <-]. auto.
Qed.

Lemma pairs_flatten_pairs l : pairs (flatten_pairs l) = l.
Proof.
  induction l as [|[a b] l IH]; [reflexivity|]. simpl. rewrite IH. reflexivity.
Qed.

Lemma flatten_pairs_app l1 l2 :
  flatten_pairs (l1 ++ l2) = flatten_pairs l1 ++ flatten_pairs l2.
Proof. unfold flatten_pairs. apply flat_map_app. Qed.

Lemma survives_in ids a b :
  survives ids (a, b) = true <-> a ∈ ids /\ b ∈ ids.
Proof.
  unfold survives. cbn [fst snd].
  rewrite andb_true_iff, !bool_decide_eq_true. reflexivity.
Qed.

Lemma survives_set (ids : list Z) ab :
  bool_decide (ab.1 ∈ (list_to_set ids : gset Z))
  && bool_decide (ab.2 ∈ (list_to_set ids : gset Z))
  = survives ids ab.
Proof.
  unfold survives. f_equal; apply bool_decide_ext, elem_of_list_to_set.
Qed.

Lemma stored_xyz_eq sid nm x y z xt yt zt :
  transform_xyz x y z = (xt, yt, zt) ->
  stored_xyz (sid, nm, x, y, z) = [c_float xt; c_float yt; c_float zt].
Proof. unfold stored_xyz. cbn [system_xyz]. intros ->. reflexivity. Qed.

Lemma filter_split_length {A} (f : A -> bool) (l : list A) :
  length l
  = (length (List.filter f l) + length (List.filter (fun x => negb (f x)) l))%nat.
Proof.
  induction l as [|x l IH]; [reflexivity|]. simpl.
  destruct (f x); simpl; lia.
Qed.

Section MainFacts.
Context {py : Builtins}.

(** The loop of lines 150-154 appends, system by system, the id and the
    three stored positions; it ends normally exactly when every id fits. *)
Lemma build_arrays_ok systems : forall ids positions names ids' positions' names',
  build_arrays systems ids positions names = Ok (ids', positions', names') ->
  ids' = ids ++ map system_id systems
  /\ positions' = positions ++ flat_map stored_xyz systems
  /\ Forall fits_uint32 (map system_id systems).
Proof.
  induction systems as [|[[[[sid nm] x] y] z] rest IH];
    intros ids positions names ids' positions' names'; cbn [build_arrays].
  - intros [= <- <- <-]. rewrite !app_nil_r. simpl. auto.
  - destruct (array_I_append ids sid) as [ids1|e] eqn:Ea; [|discriminate].
    apply array_I_append_inv in Ea as [Hfit ->]. cbn [mbind result_bind].
    destruct (transform_xyz x y z) as [[xt yt] zt] eqn:Et.
    intros E. apply IH in E as (-> & -> & HF).
    cbn [flat_map map system_id].
    rewrite (stored_xyz_eq sid nm x y z _ _ _ Et). unfold array_f_extend.
    cbn [map]. rewrite <- !app_assoc. auto.
Qed.

Lemma build_arrays_overflow systems : forall ids positions names,
  Exists (fun s => ~ fits_uint32 (system_id s)) systems ->
  build_arrays systems ids positions names = Raise OverflowError.
Proof.
  induction systems as [|[[[[sid nm] x] y] z] rest IH];
    intros ids positions names HE; [inversion HE|]. cbn [build_arrays].
  destruct (decide (fits_uint32 sid)) as [Hfit|Hfit].
  - rewrite (array_I_append_ok _ _ Hfit). cbn [mbind result_bind].
    destruct (transform_xyz x y z) as [[xt yt] zt].
    apply IH. inversion HE; subst; [contradiction|assumption].
  - rewrite (array_I_append_overflow _ _ Hfit). reflexivity.
Qed.

(** The loop of lines 159-163, when the valid ids are those of an id array
    that was built: it cannot overflow, keeps the surviving pairs in order
    and counts the others. *)
Lemma filter_jumps_ok (ids : list Z) jumps : forall flat_jumps filtered_jumps,
  Forall fits_uint32 ids ->
  filter_jumps (list_to_set ids) jumps flat_jumps filtered_jumps
  = Ok (flat_jumps ++ flatten_pairs (List.filter (survives ids) jumps),
        (filtered_jumps
         + length (List.filter (fun ab => negb (survives ids ab)) jumps))%nat).
Proof.
  intros flat_jumps filtered_jumps Hids. revert flat_jumps filtered_jumps.
  induction jumps as [|[a b] rest IH]; intros flat_jumps filtered_jumps;
    cbn [filter_jumps List.filter].
  - simpl. rewrite app_nil_r, Nat.add_0_r. reflexivity.
  - pose proof (survives_set ids (a, b)) as Hs. cbn [fst snd] in Hs.
    rewrite Hs. clear Hs.
    destruct (survives ids (a, b)) eqn:Es; cbn [negb array_I_extend].
    + apply survives_in in Es as [Ha Hb].
      rewrite Forall_forall in Hids.
      rewrite (array_I_append_ok _ a (Hids a Ha)). cbn [mbind result_bind].
      rewrite (array_I_append_ok _ b (Hids b Hb)). cbn [mbind result_bind].
      rewrite IH. simpl. rewrite <- !app_assoc. reflexivity.
    + rewrite IH. simpl. f_equal. f_equal. lia.
Qed.

(** What [build] returns, in closed form. *)
Lemma build_ok_inv ld a :
  build ld = Ok a ->
  as_ids a = map system_id (ld_systems ld)
  /\ as_positions a = flat_map stored_xyz (ld_systems ld)
  /\ Forall fits_uint32 (as_ids a)
  /\ as_flat_jumps a
     = flatten_pairs (List.filter (survives (as_ids a)) (ld_jumps ld))
  /\ as_filtered_jumps a
     = length (List.filter (fun ab => negb (survives (as_ids a) ab))
                 (ld_jumps ld)).
Proof.
  unfold build.
  destruct (build_arrays (ld_systems ld) [] [] [])
    as [[[ids positions] names]|e] eqn:Eb; [|discriminate].
  apply build_arrays_ok in Eb as (-> & -> & HF). cbn [mbind result_bind].
  simpl app. rewrite (filter_jumps_ok _ _ _ _ HF). cbn [mbind result_bind].
  intros [= <-]. cbn. auto.
Qed.

(** A run that succeeds has loaded, built, and then written. *)
Lemma main_ok_inv args db fs fs' s :
  main args db fs = (fs', Ok s) ->
  exists ld a,
    load args db = Ok ld /\ build ld = Ok a /\ s = summary ld a
    /\ fs' = written (args_out args) ld a (mkdir (args_out args) fs).1.
Proof.
  unfold main, mbind, M_bind, lift. cbn [mkdir].
  destruct (load args db) as [ld|e]; [|discriminate].
  destruct (build ld) as [a|e] eqn:Eb; [|discriminate].
  rewrite write_assets_eq. unfold mret, M_ret. intros E.
  injection E as <- <-. exists ld, a. auto.
Qed.

(** A run that aborts has stopped while loading or building. *)
Lemma main_raise_inv args db fs fs' e :
  main args db fs = (fs', Raise e) ->
  fs' = (mkdir (args_out args) fs).1
  /\ (load args db = Raise e
      \/ exists ld, load args db = Ok ld /\ build ld = Raise e).
Proof.
  unfold main, mbind, M_bind, lift. cbn [mkdir].
  destruct (load args db) as [ld|e'].
  - destruct (build ld) as [a|e'] eqn:Eb.
    + rewrite write_assets_eq. unfold mret, M_ret. discriminate.
    + intros E. injection E as <- <-. eauto.
  - intros E. injection E as <- <-. auto.
Qed.

(** ** Loading *)

(** The loop over the rows, row by row: [outs] holds what the body gives on
    each row, in row order. *)
Lemma load_systems_ok id_col name_col x_col y_col z_col rows :
  forall systems n systems' n',
  load_systems id_col name_col x_col y_col z_col rows systems n
  = Ok (systems', n') ->
  exists outs : list (option system),
    Forall2 (fun r o => load_row id_col name_col x_col y_col z_col r = Ok o)
      rows outs
    /\ systems' = systems ++ omap id outs
    /\ n' = (n + length (List.filter (fun o => negb (bool_decide (is_Some o))) outs))%nat.
Proof.
  induction rows as [|r rest IH]; intros systems n systems' n';
    cbn [load_systems].
  - intros [= <- <-]. exists []. simpl.
    rewrite app_nil_r, Nat.add_0_r. auto.
  - destruct (load_row id_col name_col x_col y_col z_col r) as [o|e] eqn:Er;
      [|discriminate]. cbn [mbind result_bind].
    destruct o as [sy|]; intros E; apply IH in E as (outs & HF & -> & ->).
    + exists (Some sy :: outs). split; [constructor; auto|].
      simpl. rewrite <- app_assoc. auto.
    + exists (None :: outs). split; [constructor; auto|].
      simpl. split; [reflexivity|lia].
Qed.

(** A load that succeeds has resolved a schema, fetched the rows and run the
    two loops. *)
Lemma load_ok_inv args db ld :
  load args db = Ok ld ->
  exists sc rows,
    resolve_systems args db = Ok sc
    /\ fetch_systems db sc = Ok rows
    /\ load_systems (sc_id sc) (sc_name sc) (sc_x sc) (sc_y sc) (sc_z sc)
         rows [] 0%nat
       = Ok (ld_systems ld, ld_filtered_count ld)
    /\ load_all_jumps args db
         (py_or (args_jumps_table args) (infer_table db ["jump"; "gate"; "link"]))
       = Ok (ld_jumps ld).
Proof.
  unfold load.
  destruct (resolve_systems args db) as [sc|e] eqn:E1; [|discriminate].
  cbn [mbind result_bind].
  destruct (fetch_systems db sc) as [rows|e] eqn:E2; [|discriminate].
  cbn [mbind result_bind].
  destruct (load_systems _ _ _ _ _ rows [] 0%nat) as [[systems n]|e] eqn:E3;
    [|discriminate].
  cbn [mbind result_bind].
  destruct (load_all_jumps _ _ _) as [jumps|e] eqn:E4; [|discriminate].
  cbn [mbind result_bind]. intros [= <-]. exists sc, rows. auto.
Qed.

Lemma stored_xyz_three s : exists a b c, stored_xyz s = [a; b; c].
Proof.
  destruct s as [[[[sid nm] x] y] z]. unfold stored_xyz. cbn [system_xyz].
  destruct (transform_xyz x y z) as [[xt yt] zt]. eauto.
Qed.

Lemma flat_map_stored_length systems :
  length (flat_map stored_xyz systems) = (3 * length systems)%nat.
Proof.
  induction systems as [|s rest IH]; [reflexivity|]. cbn [flat_map].
  destruct (stored_xyz_three s) as (a & b & c & ->). simpl. lia.
Qed.

Lemma flat_map_stored_lookup systems : forall i s,
  systems !! i = Some s ->
  take 3 (drop (3 * i) (flat_map stored_xyz systems)) = stored_xyz s.
Proof.
  induction systems as [|s0 rest IH]; intros i s; [discriminate|].
  destruct i as [|i]; cbn [lookup list_lookup flat_map].
  - intros [= ->]. destruct (stored_xyz_three s) as (a & b & c & ->).
    reflexivity.
  - intros Hi. destruct (stored_xyz_three s0) as (a & b & c & ->).
    replace (3 * S i)%nat with (S (S (S (3 * i)))) by lia.
    simpl. apply IH. exact Hi.
Qed.

End MainFacts.

(** ** The properties of a run *)

Section Runs.
Context {py : Builtins}.

Lemma elem_of_filter_survives ids jumps a b :
  (a, b) ∈ List.filter (survives ids) jumps
  <-> (a, b) ∈ jumps /\ a ∈ ids /\ b ∈ ids.
Proof.
  rewrite !list_elem_of_In, filter_In, survives_in, !list_elem_of_In.
  reflexivity.
Qed.

(** C3. Whatever systems and jumps were loaded, when the arrays are built
    the pairs of the flat jump array are the loaded jumps both of whose ends
    are in the id array: a pair is in the array iff it was loaded and both
    its ends are ids of the id array; the surviving pairs keep their load
    order, each laid out as source then target; the other pairs are counted
    and are not in the array.  A run that succeeds writes these two arrays
    to [systems_ids.bin] and [jumps.bin] and prints the count. *)
Theorem jumps_filter_spec ld a :
  build ld = Ok a ->
  (forall x y,
     (x, y) ∈ pairs (as_flat_jumps a)
     <-> (x, y) ∈ ld_jumps ld /\ x ∈ as_ids a /\ y ∈ as_ids a)
  /\ pairs (as_flat_jumps a) = List.filter (survives (as_ids a)) (ld_jumps ld)
  /\ as_flat_jumps a
     = flatten_pairs (List.filter (survives (as_ids a)) (ld_jumps ld))
  /\ as_filtered_jumps a
     = length (List.filter (fun ab => negb (survives (as_ids a) ab))
                 (ld_jumps ld))
  /\ forall args db fs fs' s,
       load args db = Ok ld ->
       main args db fs = (fs', Ok s) ->
       fs_files fs' !! path_join (args_out args) "systems_ids.bin"
       = Some (BytesI (as_ids a))
       /\ fs_files fs' !! path_join (args_out args) "jumps.bin"
          = Some (BytesI (as_flat_jumps a))
       /\ json_field "filtered_jumps" s
          = Some (JInt (Z.of_nat (as_filtered_jumps a))).
Proof.
  intros Hb.
  pose proof (build_ok_inv ld a Hb) as (Ei & _ & _ & Ef & Ec).
  split; [|split; [|split; [exact Ef|split; [exact Ec|]]]].
  - intros x y. rewrite Ef at 1. rewrite pairs_flatten_pairs.
    apply elem_of_filter_survives.
  - rewrite Ef at 1. apply pairs_flatten_pairs.
  - intros args db fs fs' s Hld Hrun.
    apply main_ok_inv in Hrun as (ld' & a' & Hld' & Hb' & -> & ->).
    rewrite Hld in Hld'. injection Hld' as <-.
    rewrite Hb in Hb'. injection Hb' as <-.
    destruct (written_lookup (args_out args) ld a
                (mkdir (args_out args) fs).1) as (_ & Hids & _ & Hj & _).
    auto.
Qed.

(** C4. In a run that succeeds, [manifest.json] gives under
    ["counts"]["systems"] the number of surviving systems (the length of the
    id array) and under ["counts"]["jumps"] the number of loaded jumps,
    which is the surviving pairs plus the filtered ones. *)
Theorem manifest_counts_spec args db fs fs' s :
  main args db fs = (fs', Ok s) ->
  exists ld a m,
    load args db = Ok ld /\ build ld = Ok a
    /\ fs_files fs' !! path_join (args_out args) "manifest.json"
       = Some (Text m)
    /\ json_field "counts" m ≫= json_field "systems"
       = Some (JLen (ld_systems ld))
    /\ json_field "counts" m ≫= json_field "jumps"
       = Some (JLen (ld_jumps ld))
    /\ length (ld_systems ld) = length (as_ids a)
    /\ length (ld_jumps ld)
       = (length (pairs (as_flat_jumps a)) + as_filtered_jumps a)%nat.
Proof.
  intros Hrun.
  apply main_ok_inv in Hrun as (ld & a & Hld & Hb & -> & ->).
  destruct (written_lookup (args_out args) ld a
              (mkdir (args_out args) fs).1) as (_ & _ & _ & _ & Hm).
  exists ld, a, (manifest (ld_systems ld) (ld_jumps ld)).
  split; [exact Hld|]. split; [exact Hb|]. split; [exact Hm|].
  split; [reflexivity|]. split; [reflexivity|].
  apply build_ok_inv in Hb as (Ei & _ & _ & Ef & Ec).
  rewrite Ei, length_map. split; [reflexivity|].
  rewrite Ef, pairs_flatten_pairs, Ec. apply filter_split_length.
Qed.

(** C6. A run that aborts writes no file: the files after the run are the
    files before it.  This covers the two fatal conditions, an unresolved
    systems table ([SystemExit]) and an id that [int] rejects ([IdError]),
    which are raised before the first write. *)
Theorem abort_writes_nothing args db fs fs' e :
  main args db fs = (fs', Raise e) ->
  fs_files fs' = fs_files fs
  /\ forall name, name ∈ asset_files ->
       fs_files fs' !! path_join (args_out args) name
       = fs_files fs !! path_join (args_out args) name.
Proof.
  intros Hrun. apply main_raise_inv in Hrun as [-> _].
  cbn [mkdir fst fs_files]. auto.
Qed.

(** C7. In a run that succeeds, the position array is three times as long
    as the id array; the systems are what the loop body gave on the fetched
    rows, in row order; and the i-th system has its id at [ids[i]] and its
    three stored positions at [positions[3i..3i+2]]. *)
Theorem positions_parallel_ids args db fs fs' s :
  main args db fs = (fs', Ok s) ->
  exists ld ids positions,
    load args db = Ok ld
    /\ fs_files fs' !! path_join (args_out args) "systems_ids.bin"
       = Some (BytesI ids)
    /\ fs_files fs' !! path_join (args_out args) "systems_positions.bin"
       = Some (BytesF positions)
    /\ length positions = (3 * length ids)%nat
    /\ (exists sc rows outs,
          resolve_systems args db = Ok sc
          /\ fetch_systems db sc = Ok rows
          /\ Forall2
               (fun r o =>
                  load_row (sc_id sc) (sc_name sc) (sc_x sc) (sc_y sc)
                    (sc_z sc) r = Ok o)
               rows outs
          /\ ld_systems ld = omap id outs)
    /\ ids = map system_id (ld_systems ld)
    /\ forall i sy,
         ld_systems ld !! i = Some sy ->
         ids !! i = Some (system_id sy)
         /\ take 3 (drop (3 * i) positions) = stored_xyz sy.
Proof.
  intros Hrun.
  apply main_ok_inv in Hrun as (ld & a & Hld & Hb & -> & ->).
  destruct (written_lookup (args_out args) ld a
              (mkdir (args_out args) fs).1) as (Hp & Hids & _).
  apply build_ok_inv in Hb as (Ei & Ep & _).
  exists ld, (as_ids a), (as_positions a).
  split; [exact Hld|]. split; [exact Hids|]. split; [exact Hp|].
  rewrite Ei, Ep, flat_map_stored_length, length_map.
  split; [reflexivity|]. split.
  - apply load_ok_inv in Hld as (sc & rows & Hsc & Hrows & Hsys & _).
    apply load_systems_ok in Hsys as (outs & HF & Hs & _).
    exists sc, rows, outs. auto.
  - split; [reflexivity|]. intros i sy Hi. split.
    + rewrite list_lookup_fmap, Hi. reflexivity.
    + apply flat_map_stored_lookup. exact Hi.
Qed.

Lemma mkdir_twice out fs :
  (mkdir out (mkdir out fs).1).1 = (mkdir out fs).1.
Proof.
  cbn [mkdir fst fs_dirs fs_files]. f_equal.
  rewrite (assoc_L (∪)), (idemp_L (∪)). reflexivity.
Qed.

Lemma written_twice out ld a fs :
  written out ld a (written out ld a fs) = written out ld a fs.
Proof.
  destruct (written_lookup out ld a fs) as (H1 & H2 & H3 & H4 & H5).
  set (w := written out ld a fs) in *. unfold written.
  rewrite (insert_id _ _ _ H1), (insert_id _ _ _ H2), (insert_id _ _ _ H3),
    (insert_id _ _ _ H4), (insert_id _ _ _ H5).
  destruct w; reflexivity.
Qed.

Lemma main_eq args db fs :
  main args db fs
  = match load args db with
    | Ok ld =>
        match build ld with
        | Ok a => (written (args_out args) ld a (mkdir (args_out args) fs).1,
                   Ok (summary ld a))
        | Raise e => ((mkdir (args_out args) fs).1, Raise e)
        end
    | Raise e => ((mkdir (args_out args) fs).1, Raise e)
    end.
Proof.
  unfold main, mbind, M_bind, lift. cbn [mkdir].
  destruct (load args db) as [ld|e]; [|reflexivity].
  destruct (build ld) as [a|e]; reflexivity.
Qed.

(** C8. The outcome of a run and, when it succeeds, the contents of the
    five files depend on the arguments and the database only, not on the
    file system the run starts from; and a second run, started where the
    first one ended, leaves every file as the first one wrote it. *)
Theorem main_deterministic args db fs1 fs2 :
  (main args db fs1).2 = (main args db fs2).2
  /\ (forall s name,
        (main args db fs1).2 = Ok s -> name ∈ asset_files ->
        fs_files (main args db fs1).1 !! path_join (args_out args) name
        = fs_files (main args db fs2).1 !! path_join (args_out args) name)
  /\ main args db (main args db fs1).1 = main args db fs1.
Proof.
  rewrite !(main_eq args db).
  destruct (load args db) as [ld|e]; cbn [fst snd].
  - destruct (build ld) as [a|e]; cbn [fst snd].
    + split; [reflexivity|]. split.
      * intros s name _ Hn. unfold asset_files in Hn.
        destruct (written_lookup (args_out args) ld a
                    (mkdir (args_out args) fs1).1) as (A1 & A2 & A3 & A4 & A5).
        destruct (written_lookup (args_out args) ld a
                    (mkdir (args_out args) fs2).1) as (B1 & B2 & B3 & B4 & B5).
        repeat (apply elem_of_cons in Hn as [->|Hn]; [congruence|]).
        apply elem_of_nil in Hn. contradiction.
      * f_equal.
        assert (E : (mkdir (args_out args)
                       (written (args_out args) ld a
                          (mkdir (args_out args) fs1).1)).1
                    = written (args_out args) ld a
                        (mkdir (args_out args) fs1).1).
        { unfold written. cbn [mkdir fst fs_dirs fs_files]. f_equal.
          rewrite (assoc_L (∪)), (idemp_L (∪)). reflexivity. }
        rewrite E. apply written_twice.
    + split; [reflexivity|]. split; [discriminate|].
      rewrite mkdir_twice. reflexivity.
  - split; [reflexivity|]. split; [discriminate|].
    rewrite mkdir_twice. reflexivity.
Qed.

(** C9. The name check comes before the coercions: on a row whose name is
    excluded the loop body gives [None] (the row is skipped) whatever [int]
    and [float] would make of its id and coordinates, so the loop goes on to
    the next row with one more filtered system. *)
Theorem excluded_row_not_coerced id_col name_col x_col y_col z_col
  (r : row) (sid : value) (nm : string) :
  row_getitem r id_col = Ok sid ->
  load_name r name_col sid = Ok (VStr nm) ->
  is_filtered_system nm = true ->
  load_row id_col name_col x_col y_col z_col r = Ok None
  /\ forall rest systems n,
       load_systems id_col name_col x_col y_col z_col (r :: rest) systems n
       = load_systems id_col name_col x_col y_col z_col rest systems (S n).
Proof.
  intros Hsid Hnm Hex.
  assert (E : load_row id_col name_col x_col y_col z_col r = Ok None).
  { unfold load_row. rewrite Hsid. cbn [mbind result_bind].
    rewrite Hnm. cbn [mbind result_bind]. rewrite Hex. reflexivity. }
  split; [exact E|]. intros rest systems n.
  cbn [load_systems]. rewrite E. reflexivity.
Qed.

Lemma flatten_pairs_fits ids jumps :
  Forall fits_uint32 ids ->
  Forall fits_uint32 (flatten_pairs (List.filter (survives ids) jumps)).
Proof.
  intros Hids. rewrite Forall_forall in Hids.
  induction jumps as [|[a b] rest IH]; [constructor|].
  cbn [List.filter]. destruct (survives ids (a, b)) eqn:Es; [|exact IH].
  apply survives_in in Es as [Ha Hb].
  unfold flatten_pairs. cbn [flat_map fst snd app].
  constructor; [apply Hids, Ha|].
  constructor; [apply Hids, Hb|]. exact IH.
Qed.

(** C10. In a run that succeeds, every id of [systems_ids.bin] and every
    endpoint of [jumps.bin] is in [0, 2^32); an item outside that range makes
    [array('I').append] raise, and a loaded system with such an id makes the
    run end with [OverflowError]. *)
Theorem emitted_ids_fit_uint32 args db fs fs' s :
  main args db fs = (fs', Ok s) ->
  exists ids flat_jumps,
    fs_files fs' !! path_join (args_out args) "systems_ids.bin"
    = Some (BytesI ids)
    /\ fs_files fs' !! path_join (args_out args) "jumps.bin"
       = Some (BytesI flat_jumps)
    /\ Forall fits_uint32 ids
    /\ Forall fits_uint32 flat_jumps
    /\ (forall a v, ~ fits_uint32 v -> array_I_append a v = Raise OverflowError)
    /\ (forall ld,
          Exists (fun sy => ~ fits_uint32 (system_id sy)) (ld_systems ld) ->
          build ld = Raise OverflowError).
Proof.
  intros Hrun.
  apply main_ok_inv in Hrun as (ld & a & Hld & Hb & -> & ->).
  destruct (written_lookup (args_out args) ld a
              (mkdir (args_out args) fs).1) as (_ & Hids & _ & Hj & _).
  apply build_ok_inv in Hb as (_ & _ & Hfit & Ef & _).
  exists (as_ids a), (as_flat_jumps a).
  split; [exact Hids|]. split; [exact Hj|]. split; [exact Hfit|].
  split; [rewrite Ef; apply flatten_pairs_fits, Hfit|].
  split; [intros; apply array_I_append_overflow; assumption|].
  intros ld' HE. unfold build.
  rewrite (build_arrays_overflow _ [] [] [] HE). reflexivity.
Qed.

End Runs.

(** ** Schema resolver *)

(** X3. When no table name holds a keyword, [infer_table] gives the first table
    that [sqlite_master] enumerates, whatever the keywords are. *)
Lemma infer_table_fallback db needle_keywords :
  (forall t k, t ∈ table_names db -> k ∈ needle_keywords ->
               str_in k (lower t) = false) ->
  infer_table db needle_keywords = head (table_names db).
Proof.
  intros Hno. unfold infer_table.
  destruct (List.find _ (table_names db)) as [t|] eqn:Ef; [|reflexivity].
  apply find_some in Ef as [Hin Hex]. exfalso.
  apply existsb_exists in Hex as (k & Hk & Hs).
  rewrite (Hno t k) in Hs; [discriminate| |]; apply list_elem_of_In; assumption.
Qed.

(** C5, on the code.  The database [systems_only_db] has one table,
    [SolarSystems], whose name holds none of "jump", "gate", "link".  The
    jumps table resolves to that table, not to [None]; its column
    [smart_object_id] is taken for both ends of a jump, one jump [(1, 1)]
    is loaded, and [jumps.bin] holds it. *)
Theorem jumps_table_falls_back_to_first_table :
  infer_table systems_only_db ["jump"; "gate"; "link"] = Some "SolarSystems"
  /\ (ld_jumps_table <$> load (py:=cpython) (no_overrides "out") systems_only_db)
     = Ok (Some "SolarSystems")
  /\ (ld_jumps <$> load (py:=cpython) (no_overrides "out") systems_only_db)
     = Ok [(1, 1)]
  /\ fs_files (main (py:=cpython) (no_overrides "out") systems_only_db empty_fs).1
       !! path_join "out" "jumps.bin"
     = Some (BytesI [1; 1]).
Proof. repeat split; vm_compute; reflexivity. Qed.

(** ** The theorems at concrete runs *)

Lemma scenario_run :
  main (py:=cpython) scenario_args scenario_db empty_fs
  = (scenario_fs, Ok scenario_summary).
Proof. vm_compute. reflexivity. Qed.

(** C3 on the scenario of the specification: of the loaded jumps [(1,2)],
    [(1,3)], [(3,99)] the array keeps [(1,3)]. *)
Lemma jumps_filter_spec_witness :
  load (py:=cpython) scenario_args scenario_db = Ok scenario_loaded
  /\ build (py:=cpython) scenario_loaded = Ok scenario_assets
  /\ pairs (as_flat_jumps scenario_assets)
     = List.filter (survives (as_ids scenario_assets))
         (ld_jumps scenario_loaded)
  /\ pairs (as_flat_jumps scenario_assets) = [(1, 3)].
Proof.
  split; [vm_compute; reflexivity|]. split; [vm_compute; reflexivity|].
  split; [|reflexivity].
  apply (jumps_filter_spec (py:=cpython) scenario_loaded scenario_assets).
  vm_compute. reflexivity.
Defined.

(** C4 on the scenario of the specification. *)
Lemma manifest_counts_spec_witness :
  exists ld a m,
    load (py:=cpython) scenario_args scenario_db = Ok ld /\ build (py:=cpython) ld = Ok a
    /\ fs_files scenario_fs !! path_join "out" "manifest.json"
       = Some (Text m)
    /\ json_field "counts" m ≫= json_field "systems"
       = Some (JLen (ld_systems ld))
    /\ json_field "counts" m ≫= json_field "jumps"
       = Some (JLen (ld_jumps ld))
    /\ length (ld_systems ld) = length (as_ids a)
    /\ length (ld_jumps ld)
       = (length (pairs (as_flat_jumps a)) + as_filtered_jumps a)%nat.
Proof.
  apply (manifest_counts_spec (py:=cpython) scenario_args scenario_db empty_fs
           scenario_fs scenario_summary).
  exact scenario_run.
Defined.

(** C7 on the scenario of the specification. *)
Lemma positions_parallel_ids_witness :
  exists ld ids positions,
    load (py:=cpython) scenario_args scenario_db = Ok ld
    /\ fs_files scenario_fs !! path_join "out" "systems_ids.bin"
       = Some (BytesI ids)
    /\ fs_files scenario_fs !! path_join "out" "systems_positions.bin"
       = Some (BytesF positions)
    /\ length positions = (3 * length ids)%nat
    /\ (exists sc rows outs,
          resolve_systems scenario_args scenario_db = Ok sc
          /\ fetch_systems scenario_db sc = Ok rows
          /\ Forall2
               (fun r o =>
                  load_row (py:=cpython) (sc_id sc) (sc_name sc) (sc_x sc) (sc_y sc)
                    (sc_z sc) r = Ok o)
               rows outs
          /\ ld_systems ld = omap id outs)
    /\ ids = map system_id (ld_systems ld)
    /\ forall i sy,
         ld_systems ld !! i = Some sy ->
         ids !! i = Some (system_id sy)
         /\ take 3 (drop (3 * i) positions) = stored_xyz sy.
Proof.
  apply (positions_parallel_ids (py:=cpython) scenario_args scenario_db empty_fs
           scenario_fs scenario_summary).
  exact scenario_run.
Defined.

(** C10 on the scenario of the specification. *)
Lemma emitted_ids_fit_uint32_witness :
  exists ids flat_jumps,
    fs_files scenario_fs !! path_join "out" "systems_ids.bin"
    = Some (BytesI ids)
    /\ fs_files scenario_fs !! path_join "out" "jumps.bin"
       = Some (BytesI flat_jumps)
    /\ Forall fits_uint32 ids
    /\ Forall fits_uint32 flat_jumps
    /\ (forall a v, ~ fits_uint32 v -> array_I_append a v = Raise OverflowError)
    /\ (forall ld,
          Exists (fun sy => ~ fits_uint32 (system_id sy)) (ld_systems ld) ->
          build (py:=cpython) ld = Raise OverflowError).
Proof.
  apply (emitted_ids_fit_uint32 (py:=cpython) scenario_args scenario_db empty_fs
           scenario_fs scenario_summary).
  exact scenario_run.
Defined.

(** C6 at two runs that abort: a retained row with a NULL id, and a
    database without tables. *)
Lemma abort_writes_nothing_witness :
  ((main (py:=cpython) scenario_args null_id_db empty_fs).2 = Raise IdError
   /\ fs_files (main (py:=cpython) scenario_args null_id_db empty_fs).1
      = fs_files empty_fs)
  /\ ((main (py:=cpython) scenario_args [] empty_fs).2 = Raise SystemExit
      /\ fs_files (main (py:=cpython) scenario_args [] empty_fs).1
         = fs_files empty_fs).
Proof.
  split; (split; [vm_compute; reflexivity|]).
  - apply (abort_writes_nothing (py:=cpython) scenario_args null_id_db
             empty_fs _ IdError).
    vm_compute. reflexivity.
  - apply (abort_writes_nothing (py:=cpython) scenario_args [] empty_fs
             _ SystemExit).
    vm_compute. reflexivity.
Defined.

(** C9 at a placeholder row whose id and coordinates are not numbers: [int]
    and [float] reject them, and the row is skipped all the same. *)
Lemma excluded_row_not_coerced_witness :
  (py_int (Builtins:=cpython) VNone = None
   /\ py_float (Builtins:=cpython) (VStr "n/a") = None)
  /\ (load_row (py:=cpython) "id" (Some "name") (Some "x") (Some "y") (Some "z")
        placeholder_row = Ok None
      /\ forall rest systems n,
           load_systems (py:=cpython) "id" (Some "name") (Some "x") (Some "y")
             (Some "z") (placeholder_row :: rest) systems n
           = load_systems (py:=cpython) "id" (Some "name") (Some "x")
               (Some "y") (Some "z") rest systems (S n)).
Proof.
  split; [split; reflexivity|].
  apply (excluded_row_not_coerced (py:=cpython) "id" (Some "name") (Some "x")
           (Some "y") (Some "z") placeholder_row VNone "V-001");
    reflexivity.
Defined.

(** * Further properties of the code *)

(** ** Schema resolver *)

Lemma find_first {A} (f : A -> bool) pre x post :
  Forall (fun y => f y = false) pre -> f x = true ->
  List.find f (pre ++ x :: post) = Some x.
Proof.
  intros Hpre Hx. induction Hpre as [|y pre Hy _ IH]; simpl.
  - rewrite Hx. reflexivity.
  - rewrite Hy. exact IH.
Qed.

(** X1. [infer_table] answers with the name of a table of the database, and
    it answers [None] exactly when the database has no table. *)
Theorem infer_table_member db needle_keywords :
  (forall t, infer_table db needle_keywords = Some t -> t ∈ table_names db)
  /\ (infer_table db needle_keywords = None <-> db = []).
Proof.
  unfold infer_table, table_names. split.
  - intros t. destruct (List.find _ (map tbl_name db)) as [u|] eqn:Ef.
    + intros [= <-]. apply find_some in Ef as [Hin _].
      apply list_elem_of_In, Hin.
    + destruct db as [|tb rest]; [discriminate|]. simpl.
      intros [= <-]. apply list_elem_of_here.
  - destruct (List.find _ (map tbl_name db)) as [u|] eqn:Ef.
    + split; [discriminate|]. intros ->. discriminate.
    + destruct db as [|tb rest]; simpl; split; auto; discriminate.
Qed.

(** X2. When a table name holds a keyword (in any letter case), the answer
    of [infer_table] is the first such table in enumeration order. *)
Theorem infer_table_first_match db needle_keywords pre t post :
  table_names db = pre ++ t :: post ->
  Forall (fun u => table_matches needle_keywords u = false) pre ->
  table_matches needle_keywords t = true ->
  infer_table db needle_keywords = Some t.
Proof.
  intros Hdb Hpre Ht. unfold infer_table. cbv zeta. rewrite Hdb.
  rewrite find_first; [reflexivity|exact Hpre|exact Ht].
Qed.

(** X4. A column that [find_col] answers is a column of the list whose
    lowercase form is one of the candidates; [find_col] answers [None]
    exactly when no column, lowercased, is a candidate. *)
Theorem find_col_spec cols candidates :
  (forall c, find_col cols candidates = Some c ->
             c ∈ cols /\ lower c ∈ candidates)
  /\ (find_col cols candidates = None
      <-> forall c, c ∈ cols -> lower c ∉ candidates).
Proof.
  induction candidates as [|cand rest [IH1 IH2]]; cbn [find_col].
  - split; [discriminate|]. split; [|reflexivity].
    intros _ c _ Hin. apply elem_of_nil in Hin. exact Hin.
  - destruct (List.find _ cols) as [d|] eqn:Ef.
    + apply find_some in Ef as [Hin Heq]. apply String.eqb_eq in Heq.
      split.
      * intros c [= <-]. split; [apply list_elem_of_In, Hin|].
        rewrite <- Heq. apply list_elem_of_here.
      * split; [discriminate|]. intros Hno. exfalso.
        apply (Hno d); [apply list_elem_of_In, Hin|].
        rewrite <- Heq. apply list_elem_of_here.
    + assert (Hnone : forall c, c ∈ cols -> lower c <> cand).
      { intros c Hc E. apply list_elem_of_In in Hc.
        pose proof (find_none _ _ Ef c Hc) as Hf. cbn beta in Hf.
        rewrite <- E, String.eqb_refl in Hf. discriminate. }
      split.
      * intros c Hc. destruct (IH1 c Hc) as [? ?].
        split; [assumption|]. apply list_elem_of_further. assumption.
      * rewrite IH2. split.
        -- intros Hno c Hc Hin. apply elem_of_cons in Hin as [E|Hin].
           ++ exact (Hnone c Hc E).
           ++ exact (Hno c Hc Hin).
        -- intros Hno c Hc Hin. apply (Hno c Hc).
           apply list_elem_of_further. exact Hin.
Qed.


(** X6. A column that [contains] answers is the first column of the list
    whose lowercase form holds every part as a substring; [contains] answers
    [None] exactly when no column does; and with no part at all it answers
    the first column. *)
Theorem contains_spec jmp_cols parts :
  (forall c, contains jmp_cols parts = Some c ->
     exists pre post,
       jmp_cols = pre ++ c :: post
       /\ Forall (fun d => column_contains parts d = false) pre
       /\ column_contains parts c = true)
  /\ (contains jmp_cols parts = None
      <-> forall c, c ∈ jmp_cols -> column_contains parts c = false)
  /\ contains jmp_cols [] = head jmp_cols.
Proof.
  unfold contains. fold (column_contains parts). split; [|split].
  - induction jmp_cols as [|d rest IH]; intros c; cbn [List.find];
      [discriminate|].
    destruct (column_contains parts d) eqn:Ed.
    + intros [= <-]. exists [], rest. auto.
    + intros Hf. destruct (IH c Hf) as (pre & post & -> & Hpre & Hc).
      exists (d :: pre), post. split; [reflexivity|]. split; [|exact Hc].
      constructor; assumption.
  - split.
    + intros Hf c Hc. apply list_elem_of_In in Hc.
      exact (find_none _ _ Hf c Hc).
    + intros Hno. destruct (List.find _ jmp_cols) as [d|] eqn:Ef;
        [|reflexivity].
      apply find_some in Ef as [Hin Hd].
      rewrite (Hno d) in Hd; [discriminate|]. apply list_elem_of_In, Hin.
  - destruct jmp_cols; reflexivity.
Qed.

(** ** Name filter *)

Lemma letter_V_lower c :
  letter_eqb "V" "v" (lower_char c) = letter_eqb "V" "v" c.
Proof. destruct c as [[] [] [] [] [] [] [] []]; reflexivity. Qed.

Lemma letter_A_lower c :
  letter_eqb "A" "a" (lower_char c) = letter_eqb "A" "a" c.
Proof. destruct c as [[] [] [] [] [] [] [] []]; reflexivity. Qed.

Lemma letter_D_lower c :
  letter_eqb "D" "d" (lower_char c) = letter_eqb "D" "d" c.
Proof. destruct c as [[] [] [] [] [] [] [] []]; reflexivity. Qed.

Lemma hyphen_lower c : Ascii.eqb (lower_char c) "-" = Ascii.eqb c "-".
Proof. destruct c as [[] [] [] [] [] [] [] []]; reflexivity. Qed.

Lemma is_digit_lower c : is_digit (lower_char c) = is_digit c.
Proof. destruct c as [[] [] [] [] [] [] [] []]; reflexivity. Qed.

Lemma newline_lower c : Ascii.eqb (lower_char c) newline = Ascii.eqb c newline.
Proof. destruct c as [[] [] [] [] [] [] [] []]; reflexivity. Qed.

Lemma at_end_lower t : at_end (lower t) = at_end t.
Proof.
  destruct t as [|c [|c' t]]; cbn [lower at_end]; [reflexivity| |reflexivity].
  apply newline_lower.
Qed.

Lemma is_filtered_system_lower name :
  is_filtered_system (lower name) = is_filtered_system name.
Proof.
  rewrite !is_filtered_system_orb, !re_match_V, !re_match_AD.
  destruct name as [|c1 [|c2 [|c3 [|c4 [|c5 t]]]]]; cbn [lower];
    try reflexivity.
  rewrite letter_V_lower, letter_A_lower, letter_D_lower, hyphen_lower,
    !is_digit_lower, at_end_lower.
  reflexivity.
Qed.

(** X7. The name filter does not look at letter case: two names that are
    equal once lowercased are both excluded or both retained. *)
Theorem is_filtered_system_case_insensitive name1 name2 :
  lower name1 = lower name2 ->
  is_filtered_system name1 = is_filtered_system name2.
Proof.
  intros E.
  rewrite <- (is_filtered_system_lower name1), E.
  apply is_filtered_system_lower.
Qed.

Lemma find_col_in cols candidates c :
  find_col cols candidates = Some c -> c ∈ cols /\ lower c ∈ candidates.
Proof.
  induction candidates as [|cand rest IH]; cbn [find_col]; [discriminate|].
  destruct (List.find _ cols) as [d|] eqn:Ef.
  - intros [= <-]. apply find_some in Ef as [Hin Heq].
    apply String.eqb_eq in Heq. split; [apply list_elem_of_In, Hin|].
    rewrite <- Heq. apply list_elem_of_here.
  - intros Hc. destruct (IH Hc). split; [assumption|].
    apply list_elem_of_further. assumption.
Qed.

(** ** Loading the systems *)

Lemma outs_split_length {A} (outs : list (option A)) :
  (length (omap id outs)
   + length (List.filter (fun o => negb (bool_decide (is_Some o))) outs))%nat
  = length outs.
Proof.
  induction outs as [|[x|] outs IH]; [reflexivity| |]; cbn.
  - rewrite <- IH. reflexivity.
  - rewrite <- IH. cbn. lia.
Qed.

Section LoadFacts.
Context {py : Builtins}.

Lemma load_row_retained id_col name_col x_col y_col z_col r sy :
  load_row id_col name_col x_col y_col z_col r = Ok (Some sy) ->
  is_filtered_system (system_name sy) = false.
Proof.
  unfold load_row.
  destruct (row_getitem r id_col) as [sid|]; [|discriminate].
  cbn [mbind result_bind].
  destruct (load_name r name_col sid) as [nm|]; [|discriminate].
  cbn [mbind result_bind]. destruct nm as [| | |nm|]; try discriminate.
  destruct (is_filtered_system nm) eqn:Ef; [discriminate|].
  destruct (load_coord r x_col); [|discriminate]. cbn [mbind result_bind].
  destruct (load_coord r y_col); [|discriminate]. cbn [mbind result_bind].
  destruct (load_coord r z_col); [|discriminate]. cbn [mbind result_bind].
  destruct (py_int sid); [|discriminate]. cbn.
  intros [= <-]. exact Ef.
Qed.

(** X11. When the loading loop ends normally, every fetched row has been
    either appended to [systems] or counted in [filtered_count]: the two
    together grow by the number of rows. *)
Theorem every_row_loaded_or_counted id_col name_col x_col y_col z_col
  rows systems n systems' n' :
  load_systems id_col name_col x_col y_col z_col rows systems n
  = Ok (systems', n') ->
  (length systems' + n' = length systems + n + length rows)%nat.
Proof.
  intros Hl. apply load_systems_ok in Hl as (outs & HF & -> & ->).
  rewrite (Forall2_length _ _ _ HF), length_app.
  pose proof (outs_split_length outs). lia.
Qed.

Lemma load_systems_retained id_col name_col x_col y_col z_col rows systems n :
  load_systems id_col name_col x_col y_col z_col rows [] 0%nat
  = Ok (systems, n) ->
  Forall (fun sy => is_filtered_system (system_name sy) = false) systems.
Proof.
  intros Hl. apply load_systems_ok in Hl as (outs & HF & -> & _).
  cbn [app]. induction HF as [|r o rows outs Hr _ IH]; [constructor|].
  destruct o as [sy|]; cbn; [|exact IH].
  constructor; [|exact IH]. eapply load_row_retained, Hr.
Qed.

End LoadFacts.

(** ** The name dictionary *)

Lemma dict_get_set_eq d k v : dict_get (dict_set d k v) k = Some v.
Proof.
  induction d as [|[k' v'] d IH]; cbn [dict_set dict_get].
  - rewrite String.eqb_refl. reflexivity.
  - destruct (String.eqb k' k) eqn:E; cbn [dict_get]; rewrite E; auto.
Qed.

Lemma dict_get_set_ne d k v k0 :
  k0 <> k -> dict_get (dict_set d k v) k0 = dict_get d k0.
Proof.
  intros Hne. induction d as [|[k' v'] d IH]; cbn [dict_set dict_get].
  - destruct (String.eqb k k0) eqn:E; [|reflexivity].
    apply String.eqb_eq in E. congruence.
  - destruct (String.eqb k' k) eqn:E; cbn [dict_get].
    + apply String.eqb_eq in E. subst k'.
      destruct (String.eqb k k0) eqn:E0; [|reflexivity].
      apply String.eqb_eq in E0. congruence.
    + rewrite IH. reflexivity.
Qed.

Lemma dict_set_keys d k v :
  map fst (dict_set d k v)
  = if bool_decide (k ∈ map fst d) then map fst d else map fst d ++ [k].
Proof.
  induction d as [|[k' v'] d IH]; cbn [dict_set map fst].
  - reflexivity.
  - destruct (String.eqb k' k) eqn:E.
    + apply String.eqb_eq in E. subst k'. cbn [map fst].
      rewrite bool_decide_eq_true_2; [reflexivity|apply list_elem_of_here].
    + apply String.eqb_neq in E. cbn [map fst]. rewrite IH.
      destruct (bool_decide (k ∈ map fst d)) eqn:Eb.
      * apply bool_decide_eq_true in Eb.
        rewrite bool_decide_eq_true_2; [reflexivity|].
        apply list_elem_of_further, Eb.
      * apply bool_decide_eq_false in Eb.
        rewrite bool_decide_eq_false_2; [reflexivity|].
        intros Hin. apply elem_of_cons in Hin as [?|?]; [congruence|tauto].
Qed.

Lemma dict_set_NoDup d k v :
  NoDup (map fst d) -> NoDup (map fst (dict_set d k v)).
Proof.
  intros Hd. rewrite dict_set_keys.
  destruct (bool_decide (k ∈ map fst d)) eqn:Eb; [exact Hd|].
  apply bool_decide_eq_false in Eb.
  apply NoDup_app. split; [exact Hd|]. split.
  - intros x Hx Hk. apply list_elem_of_singleton in Hk. subst x. tauto.
  - apply NoDup_singleton.
Qed.

Lemma dict_set_elem_of_keys d k v k0 :
  k0 ∈ map fst (dict_set d k v) <-> k0 ∈ map fst d \/ k0 = k.
Proof.
  rewrite dict_set_keys.
  destruct (bool_decide (k ∈ map fst d)) eqn:Eb.
  - apply bool_decide_eq_true in Eb. split; [auto|].
    intros [?| ->]; assumption.
  - rewrite elem_of_app, list_elem_of_singleton. reflexivity.
Qed.

Lemma dict_set_values (P : string -> Prop) d k v :
  Forall (fun kv => P kv.2) d -> P v ->
  Forall (fun kv => P kv.2) (dict_set d k v).
Proof.
  intros Hd Hv. induction Hd as [|[k' v'] d Hkv Hd IH]; cbn [dict_set].
  - constructor; [exact Hv|constructor].
  - destruct (String.eqb k' k); constructor;
      [exact Hv|exact Hd|exact Hkv|exact IH].
Qed.

Section NamesFacts.
Context {py : Builtins}.

Lemma build_arrays_names systems : forall ids positions names ids' positions' names',
  build_arrays systems ids positions names = Ok (ids', positions', names') ->
  names' = names_after systems names.
Proof.
  induction systems as [|[[[[sid nm] x] y] z] rest IH];
    intros ids positions names ids' positions' names'; cbn [build_arrays].
  - intros [= _ _ <-]. reflexivity.
  - destruct (array_I_append ids sid) as [ids1|e]; [|discriminate].
    cbn [mbind result_bind].
    destruct (transform_xyz x y z) as [[xt yt] zt].
    intros E. apply IH in E. exact E.
Qed.

Lemma build_arrays_total systems : forall ids positions names,
  Forall fits_uint32 (map system_id systems) ->
  exists r, build_arrays systems ids positions names = Ok r.
Proof.
  induction systems as [|[[[[sid nm] x] y] z] rest IH];
    intros ids positions names HF; cbn [build_arrays]; [eauto|].
  cbn [map system_id] in HF. inversion HF as [|? ? Hfit HF']; subst.
  rewrite (array_I_append_ok _ _ Hfit). cbn [mbind result_bind].
  destruct (transform_xyz x y z) as [[xt yt] zt]. apply IH. exact HF'.
Qed.

Lemma names_after_app l1 l2 names :
  names_after (l1 ++ l2) names = names_after l2 (names_after l1 names).
Proof. unfold names_after. apply fold_left_app. Qed.

Lemma names_after_cons sy rest names :
  names_after (sy :: rest) names
  = names_after rest (dict_set names (name_key sy) (system_name sy)).
Proof. reflexivity. Qed.

Lemma names_after_NoDup systems : forall names,
  NoDup (map fst names) -> NoDup (map fst (names_after systems names)).
Proof.
  induction systems as [|sy rest IH]; intros names Hn; [exact Hn|].
  rewrite names_after_cons. apply IH, dict_set_NoDup, Hn.
Qed.

Lemma names_after_keys systems : forall names k,
  k ∈ map fst (names_after systems names)
  <-> k ∈ map fst names \/ exists sy, sy ∈ systems /\ k = name_key sy.
Proof.
  induction systems as [|sy rest IH]; intros names k.
  - cbn. split; [auto|]. intros [?|(sy & Hin & _)]; [assumption|].
    apply elem_of_nil in Hin. contradiction.
  - rewrite names_after_cons.
    rewrite IH, dict_set_elem_of_keys. split.
    + intros [[?| ->]|(sy' & Hin & ->)]; auto.
      * right. exists sy. split; [apply list_elem_of_here|reflexivity].
      * right. exists sy'. split; [apply list_elem_of_further, Hin|reflexivity].
    + intros [?|(sy' & Hin & ->)]; auto.
      apply elem_of_cons in Hin as [->|Hin]; [auto|]. right. eauto.
Qed.

Lemma names_after_get_other systems : forall names k,
  Forall (fun sy => name_key sy <> k) systems ->
  dict_get (names_after systems names) k = dict_get names k.
Proof.
  induction systems as [|sy rest IH]; intros names k HF; [reflexivity|].
  inversion HF as [|? ? Hne HF']; subst.
  rewrite names_after_cons.
  rewrite (IH _ _ HF'). apply dict_get_set_ne. congruence.
Qed.

Lemma names_after_values (P : string -> Prop) systems : forall names,
  Forall (fun kv => P kv.2) names ->
  Forall (fun sy => P (system_name sy)) systems ->
  Forall (fun kv => P kv.2) (names_after systems names).
Proof.
  induction systems as [|sy rest IH]; intros names Hn Hs; [exact Hn|].
  inversion Hs as [|? ? Hsy Hs']; subst.
  rewrite names_after_cons.
  apply IH; [|exact Hs']. apply dict_set_values; assumption.
Qed.

Lemma build_names ld a : build ld = Ok a -> as_names a = names_after (ld_systems ld) [].
Proof.
  unfold build.
  destruct (build_arrays (ld_systems ld) [] [] [])
    as [[[ids positions] names]|e] eqn:Eb; [|discriminate].
  apply build_arrays_names in Eb. cbn [mbind result_bind].
  destruct (filter_jumps _ _ _ _) as [[fj n]|e]; [|discriminate].
  cbn [mbind result_bind]. intros [= <-]. exact Eb.
Qed.

(** X12. No excluded name reaches the outputs: after a load and a build
    that succeed, no loaded system and no value of the name dictionary is a
    name that [is_filtered_system] excludes. *)
Theorem no_excluded_name_in_output args db ld a :
  load args db = Ok ld ->
  build ld = Ok a ->
  Forall (fun sy => is_filtered_system (system_name sy) = false) (ld_systems ld)
  /\ Forall (fun kv => is_filtered_system kv.2 = false) (as_names a).
Proof.
  intros Hld Hb.
  apply load_ok_inv in Hld as (sc & rows & _ & _ & Hsys & _).
  apply load_systems_retained in Hsys.
  split; [exact Hsys|]. rewrite (build_names ld a Hb).
  apply (names_after_values (fun nm => is_filtered_system nm = false));
    [constructor|exact Hsys].
Qed.

(** X15. The keys of the name dictionary are the string forms of the ids of
    the id array, each once: no key is repeated, and a string is a key
    exactly when it is [str(sid)] for an id of the array. *)
Theorem names_keys_are_ids ld a :
  build ld = Ok a ->
  NoDup (map fst (as_names a))
  /\ forall k,
       k ∈ map fst (as_names a)
       <-> exists sid, sid ∈ as_ids a /\ k = py_str (VInt sid).
Proof.
  intros Hb. rewrite (build_names ld a Hb).
  apply build_ok_inv in Hb as (-> & _). split.
  - apply names_after_NoDup. constructor.
  - intros k. rewrite names_after_keys. split.
    + intros [Hin|(sy & Hin & ->)]; [apply elem_of_nil in Hin; contradiction|].
      exists (system_id sy). split; [|reflexivity].
      apply list_elem_of_fmap. eauto.
    + intros (sid & Hin & ->). right.
      apply list_elem_of_fmap in Hin as (sy & -> & Hin). eauto.
Qed.

(** X16. The name dictionary gives, for the key of a system, the name of
    the last loaded system with that key: a later system with the same
    [str(sid)] overwrites the name, an earlier one does not. *)
Theorem names_last_writer_wins ld a pre sy post :
  build ld = Ok a ->
  ld_systems ld = pre ++ sy :: post ->
  Forall (fun sy' => name_key sy' <> name_key sy) post ->
  dict_get (as_names a) (name_key sy) = Some (system_name sy).
Proof.
  intros Hb Hsys Hpost. rewrite (build_names ld a Hb), Hsys.
  rewrite names_after_app, names_after_cons.
  rewrite (names_after_get_other _ _ _ Hpost).
  apply dict_get_set_eq.
Qed.

(** X17. Building the arrays succeeds exactly when every loaded system id is
    in [0, 2^32): the jump filter never raises, whatever the endpoints of the
    loaded jumps are. *)
Theorem build_succeeds_iff_ids_fit ld :
  (exists a, build ld = Ok a)
  <-> Forall fits_uint32 (map system_id (ld_systems ld)).
Proof.
  split.
  - intros [a Hb]. apply build_ok_inv in Hb as (Ei & _ & Hfit & _).
    rewrite <- Ei. exact Hfit.
  - intros HF. unfold build.
    destruct (build_arrays_total (ld_systems ld) [] [] [] HF)
      as [[[ids positions] names] Hb].
    rewrite Hb. cbn [mbind result_bind].
    apply build_arrays_ok in Hb as (-> & _ & _). cbn [app].
    rewrite (filter_jumps_ok _ _ _ _ HF). cbn [mbind result_bind]. eauto.
Qed.

End NamesFacts.

(** ** Loading the jumps *)

Lemma is_not_none_false v : is_not_none v = false <-> v = VNone.
Proof. destruct v; cbn; split; congruence. Qed.

Section JumpFacts.
Context {py : Builtins}.

(** X13. The jump loop ends normally exactly when every row holds its two
    endpoints and [int] accepts both endpoints of every row where neither is
    null; it then appends one pair per such row, in row order, and a row
    with a null endpoint adds nothing and is not coerced. *)
Theorem load_jumps_spec rows : forall jumps jumps',
  load_jumps rows jumps = Ok jumps'
  <-> exists outs,
        Forall2 jump_of_row rows outs /\ jumps' = jumps ++ omap id outs.
Proof.
  induction rows as [|r rest IH]; intros jumps jumps'; cbn [load_jumps].
  - split.
    + intros [= <-]. exists []. split; [constructor|].
      cbn. rewrite app_nil_r. reflexivity.
    + intros (outs & HF & ->). inversion HF; subst. cbn.
      rewrite app_nil_r. reflexivity.
  - split.
    + destruct (row_getitem r "s") as [s|] eqn:Es; [|discriminate].
      cbn [mbind result_bind].
      destruct (row_getitem r "t") as [t|] eqn:Et; [|discriminate].
      cbn [mbind result_bind].
      destruct (is_not_none s && is_not_none t) eqn:En.
      * apply andb_true_iff in En as [Hs Ht].
        destruct (py_int s) as [a|] eqn:Ea; [|discriminate].
        cbn [of_option mbind result_bind].
        destruct (py_int t) as [b|] eqn:Eb; [|discriminate].
        cbn [of_option mbind result_bind].
        intros Hl. apply IH in Hl as (outs & HF & ->).
        exists (Some (a, b) :: outs). split.
        -- constructor; [|exact HF]. exists s, t.
           repeat split; auto; intros ->; discriminate.
        -- cbn. rewrite <- app_assoc. reflexivity.
      * intros Hl. apply IH in Hl as (outs & HF & ->).
        exists (None :: outs). split; [|reflexivity].
        constructor; [|exact HF]. exists s, t. split; [exact Es|].
        split; [exact Et|].
        apply andb_false_iff in En as [E|E]; apply is_not_none_false in E; auto.
    + intros (outs & HF & ->).
      inversion HF as [|? o ? outs' (s & t & Es & Et & Ho) HF']; subst.
      rewrite Es, Et. cbn [mbind result_bind].
      destruct o as [[a b]|].
      * destruct Ho as (Hs & Ht & Ea & Eb).
        assert (En : is_not_none s && is_not_none t = true).
        { destruct s, t; try reflexivity; congruence. }
        rewrite En, Ea, Eb. cbn [of_option mbind result_bind].
        apply IH. exists outs'. split; [exact HF'|].
        cbn. rewrite <- app_assoc. reflexivity.
      * assert (En : is_not_none s && is_not_none t = false).
        { destruct Ho as [-> | ->]; [reflexivity|apply andb_false_r]. }
        rewrite En. apply IH. exists outs'. auto.
Qed.

End JumpFacts.

(** ** What a run writes and prints *)

Lemma flatten_pairs_length l :
  length (flatten_pairs l) = (2 * length l)%nat.
Proof.
  induction l as [|[a b] l IH]; [reflexivity|].
  unfold flatten_pairs in *. cbn [flat_map app length fst snd].
  rewrite IH. lia.
Qed.

Section RunFacts.
Context {py : Builtins}.

(** X19. The summary of a run that succeeds: [systems_count] is the length
    of the id array, [filtered_systems] is the number of fetched rows that
    are not in it, and [jumps_count] is the number of pairs of the flat
    jump array. *)
Theorem summary_counts args db fs fs' s :
  main args db fs = (fs', Ok s) ->
  exists ld a sc rows,
    load args db = Ok ld /\ build ld = Ok a
    /\ resolve_systems args db = Ok sc /\ fetch_systems db sc = Ok rows
    /\ json_field "systems_count" s = Some (JLen (as_ids a))
    /\ json_field "filtered_systems" s
       = Some (JInt (Z.of_nat (length rows - length (as_ids a))))
    /\ (length (as_ids a) <= length rows)%nat
    /\ json_field "jumps_count" s = Some (JLen (pairs (as_flat_jumps a))).
Proof.
  intros Hrun.
  apply main_ok_inv in Hrun as (ld & a & Hld & Hb & -> & _).
  pose proof (load_ok_inv _ _ _ Hld) as (sc & rows & Hsc & Hrows & Hsys & _).
  apply load_systems_ok in Hsys as (outs & HF & Hsys & Hcnt).
  apply Forall2_length in HF. pose proof (outs_split_length outs) as Hsplit.
  cbn [app Nat.add] in Hsys, Hcnt. rewrite <- Hsys, <- Hcnt in Hsplit.
  pose proof (build_ok_inv _ _ Hb) as (Ei & _ & _ & Ef & _).
  exists ld, a, sc, rows.
  split; [exact Hld|]. split; [exact Hb|]. split; [exact Hsc|].
  split; [exact Hrows|].
  assert (Hlen : length (as_ids a) = length (ld_systems ld)).
  { rewrite Ei. apply length_map. }
  unfold summary, JLen. cbn [json_field List.find String.eqb fst snd fmap
    option_fmap option_map]. cbn.
  rewrite Hlen. split; [reflexivity|]. split; [do 2 f_equal; lia|].
  split; [lia|].
  rewrite Ef, pairs_flatten_pairs, flatten_pairs_length.
  do 2 f_equal. rewrite Nat2Z.inj_mul. cbn. rewrite Z.mul_comm.
  apply Z.div_mul. lia.
Qed.

End RunFacts.

(** ** The coordinate transform and the inspection script *)

(** X20. The transform is odd: negating the three inputs negates the three
    outputs, bit for bit. *)
Theorem transform_xyz_odd xm ym zm :
  transform_xyz (- xm) (- ym) (- zm)
  = (let '(x, y, z) := transform_xyz xm ym zm in
     (- x, - y, - z))%float.
Proof.
  unfold transform_xyz. cbv zeta.
  rewrite (div_opp_l xm), (div_opp_l ym), (div_opp_l zm). reflexivity.
Qed.

(** X21. A column that build_data.py resolves as the x, y or z column of a
    table is among the columns that inspect_db.py reports as
    position-related for the same column list. *)
Theorem coordinate_columns_are_position_columns cols :
  (forall c, find_col cols candidates_x = Some c -> c ∈ pos_cols cols)
  /\ (forall c, find_col cols candidates_y = Some c -> c ∈ pos_cols cols)
  /\ (forall c, find_col cols candidates_z = Some c -> c ∈ pos_cols cols).
Proof.
  repeat split; intros c Hc; apply find_col_in in Hc as [Hin Hlow];
    unfold pos_cols; apply list_elem_of_In, filter_In;
    (split; [apply list_elem_of_In, Hin|]);
    unfold candidates_x, candidates_y, candidates_z in Hlow;
    repeat (apply elem_of_cons in Hlow as [->|Hlow]; [reflexivity|]);
    apply elem_of_nil in Hlow; contradiction.
Qed.

(** ** The further properties at concrete inputs *)

(** X2 on a database whose third table is the first with a jump keyword. *)
Lemma infer_table_first_match_witness :
  infer_table three_tables_db ["jump"; "gate"; "link"] = Some "StarGates".
Proof.
  apply (infer_table_first_match three_tables_db ["jump"; "gate"; "link"]
           ["Regions"; "SolarSystems"] "StarGates" []).
  - reflexivity.
  - repeat constructor.
  - reflexivity.
Defined.

(** X3 on a database whose only table has no jump keyword in its name. *)
Lemma infer_table_fallback_witness :
  infer_table systems_only_db ["jump"; "gate"; "link"]
  = head (table_names systems_only_db).
Proof.
  apply (infer_table_fallback systems_only_db ["jump"; "gate"; "link"]).
  intros t k Ht Hk. cbn in Ht.
  apply list_elem_of_singleton in Ht. subst t.
  repeat (apply elem_of_cons in Hk as [->|Hk]; [reflexivity|]).
  apply elem_of_nil in Hk. contradiction.
Defined.


(** X7 on a placeholder name in two letter cases. *)
Lemma is_filtered_system_case_insensitive_witness :
  is_filtered_system "ad123" = is_filtered_system "AD123".
Proof.
  apply (is_filtered_system_case_insensitive "ad123" "AD123"). reflexivity.
Defined.

(** X11 on the rows of the scenario: two systems loaded, one filtered, three
    rows. *)
Lemma every_row_loaded_or_counted_witness :
  (length (ld_systems scenario_loaded) + 1
   = length (@nil system) + 0 + length scenario_rows)%nat.
Proof.
  apply (every_row_loaded_or_counted (py:=cpython) "solarSystemId"
           (Some "name") (Some "centerX") (Some "centerY") (Some "centerZ")
           scenario_rows [] 0%nat (ld_systems scenario_loaded) 1%nat).
  vm_compute. reflexivity.
Defined.

(** X12 on the scenario: ["V-001"] is in no output. *)
Lemma no_excluded_name_in_output_witness :
  Forall (fun sy => is_filtered_system (system_name sy) = false)
    (ld_systems scenario_loaded)
  /\ Forall (fun kv => is_filtered_system kv.2 = false)
       (as_names scenario_assets).
Proof.
  apply (no_excluded_name_in_output (py:=cpython) scenario_args scenario_db
           scenario_loaded scenario_assets); vm_compute; reflexivity.
Defined.

(** X15 on the scenario: the keys are ["1"] and ["3"]. *)
Lemma names_keys_are_ids_witness :
  NoDup (map fst (as_names scenario_assets))
  /\ forall k,
       k ∈ map fst (as_names scenario_assets)
       <-> exists sid,
             sid ∈ as_ids scenario_assets
             /\ k = py_str (Builtins:=cpython) (VInt sid).
Proof.
  apply (names_keys_are_ids (py:=cpython) scenario_loaded scenario_assets).
  vm_compute. reflexivity.
Defined.

(** X16 on two systems with the id 1: the dictionary holds the name of the
    second. *)
Lemma names_last_writer_wins_witness :
  build (py:=cpython) renamed_loaded = Ok renamed_assets
  /\ dict_get (as_names renamed_assets) "1" = Some "Sun".
Proof.
  split; [vm_compute; reflexivity|].
  apply (names_last_writer_wins (py:=cpython) renamed_loaded renamed_assets
           [(1, "Sol", 0%float, 0%float, 0%float)]
           (1, "Sun", 0%float, 0%float, 0%float) []).
  - vm_compute. reflexivity.
  - reflexivity.
  - constructor.
Defined.

(** X19 on the scenario: two systems, one filtered row of three, one pair. *)
Lemma summary_counts_witness :
  exists ld a sc rows,
    load (py:=cpython) scenario_args scenario_db = Ok ld
    /\ build (py:=cpython) ld = Ok a
    /\ resolve_systems scenario_args scenario_db = Ok sc
    /\ fetch_systems scenario_db sc = Ok rows
    /\ json_field "systems_count" scenario_summary = Some (JLen (as_ids a))
    /\ json_field "filtered_systems" scenario_summary
       = Some (JInt (Z.of_nat (length rows - length (as_ids a))))
    /\ (length (as_ids a) <= length rows)%nat
    /\ json_field "jumps_count" scenario_summary
       = Some (JLen (pairs (as_flat_jumps a))).
Proof.
  apply (summary_counts (py:=cpython) scenario_args scenario_db empty_fs
           scenario_fs scenario_summary).
  exact scenario_run.
Defined.
